(** * dbg-deepar: the stock-prediction notebook and its helper contracts

    The repository is one Jupyter notebook, [notebooks/dbg-deepar.ipynb].
    Its cells are embedded here as programs of a small state-and-exception
    monad over the kernel's namespace (a Python dict from names to values);
    every call that leaves the notebook (sagemaker, pandas plotting, the
    helper module [deepar_util]) goes through a [library] oracle that may
    fail and whose calls are logged in order.

    The helper module [deepar_util] is imported by the notebook but is not
    part of the sources at hand; the second half of the file models the
    helpers the notebook calls from the specification's description. *)

From Stdlib Require Import ZArith List Floats.PrimFloat.
From stdpp Require Import gmap strings list fin_maps pretty.

Set Warnings "-register-all,-inexact-float".
Local Open Scope string_scope.

(** ** Python values and exceptions *)

(** Values the notebook's own code builds or inspects.  Objects that live
    in library code (sessions, estimators, data frames, predictors) are
    opaque handles. *)
Inductive value : Type :=
| VNone
| VBool (b : bool)
| VInt (z : Z)
| VFloat (x : float)
| VStr (s : string)
| VList (l : list value)
| VDict (d : list (string * value))
| VTimestamp (t : Z)      (* pandas Timestamp, whole seconds since the epoch *)
| VTimedelta (d : Z)      (* datetime.timedelta, whole seconds *)
| VObject (h : N).        (* handle of an object owned by a library *)

Inductive exn : Type :=
| AssertionError
| NameError (name : string)
| TypeError
| IndexError
| LibraryError (msg : string).   (* anything raised inside library code *)

Definition result (A : Type) : Type := (exn + A)%type.

(** Calls that leave the notebook. *)
Inductive api_call : Type :=
| GetExecutionRole | Session | BotoRegionName | GetImageUri | DefaultBucket
| LoadResampledFromS3 | Shape | GenerateTrainTestSet | WriteDictsToFile
| MetricsPlot | TimeseriesPlot
| EstimatorConstruct | SetHyperparameters | Fit | LatestTrainingJobName
| Deploy | Endpoint | PredictorConstruct
| QueryForStock | Predict | Head | LastColumn | PlotPredictedObserved
| InteractManual | Plot
| DeleteEndpoint.

Definition event : Type := (api_call * list value)%type.

(** What library code answers.  The first argument is the number of calls
    issued so far, so the same call may succeed once and fail later.  The
    three helpers whose results the notebook unpacks have the arity of
    their call site; the two dates that [generate_train_test_set] returns
    are time points of the table, in whole seconds. *)
Record library : Type := Library {
  lib_call : nat -> api_call -> list value -> string + value;
  lib_load : nat -> list value -> string + (value * value);
  lib_split : nat -> list value -> string + (value * value * Z * Z);
  lib_query : nat -> list value -> string + (value * value * value)
}.

(** ** The kernel: namespace, call log, and the monad of cell code *)

Record state : Type := State {
  ns : gmap string value;            (* the kernel's global namespace *)
  trace : list event;                (* library calls issued, oldest first *)
  reads : list (string * value)      (* every name read so far, with the value read *)
}.

Definition M (A : Type) : Type := state -> result A * state.

Definition ret {A} (a : A) : M A := fun st => (inr a, st).

Definition bind {A B} (m : M A) (k : A -> M B) : M B :=
  fun st =>
    match m st with
    | (inl e, st') => (inl e, st')
    | (inr a, st') => k a st'
    end.

Definition raise {A} (e : exn) : M A := fun st => (inl e, st).

Notation "x <~ m ;; k" := (bind m (fun x => k))
  (at level 20, m at level 99, k at level 200, only parsing).
Notation "'run' m ;; k" := (bind m (fun _ => k))
  (at level 20, m at level 99, k at level 200, only parsing).

(** Reading a name: [NameError] when it was never bound. *)
Definition load (x : string) : M value :=
  fun st =>
    match ns st !! x with
    | Some v => (inr v, State (ns st) (trace st) (reads st ++ [(x, v)]))
    | None => (inl (NameError x), st)
    end.

(** Assignment [x = v]. *)
Definition store (x : string) (v : value) : M unit :=
  fun st => (inr tt, State (<[x := v]> (ns st)) (trace st) (reads st)).

Definition log (c : api_call) (args : list value) (st : state) : state :=
  State (ns st) (trace st ++ [(c, args)]) (reads st).

Definition lift_lib {A} (r : string + A) (st : state) : result A * state :=
  match r with
  | inl msg => (inl (LibraryError msg), st)
  | inr a => (inr a, st)
  end.

Definition call (lib : library) (c : api_call) (args : list value) : M value :=
  fun st => lift_lib (lib_call lib (length (trace st)) c args) (log c args st).

Definition call_load (lib : library) (args : list value) : M (value * value) :=
  fun st =>
    lift_lib (lib_load lib (length (trace st)) args) (log LoadResampledFromS3 args st).

Definition call_split (lib : library) (args : list value)
  : M (value * value * Z * Z) :=
  fun st =>
    lift_lib (lib_split lib (length (trace st)) args) (log GenerateTrainTestSet args st).

Definition call_query (lib : library) (args : list value)
  : M (value * value * value) :=
  fun st =>
    lift_lib (lib_query lib (length (trace st)) args) (log QueryForStock args st).

(** ** Builtins the cells use *)

(** [assert c] *)
Definition py_assert (c : bool) : M unit :=
  if c then ret tt else raise AssertionError.

(** [v == 'lit'] for a string literal. *)
Definition eq_str (v : value) (lit : string) : bool :=
  match v with
  | VStr s => String.eqb s lit
  | _ => false
  end.

(** [str(v)]: exact on integers and strings, which is all the notebook
    stores after formatting; other values print as a placeholder. *)
Definition py_str (v : value) : string :=
  match v with
  | VStr s => s
  | VInt z => pretty z
  | _ => "<object>"
  end.

(** [len(l)] *)
Definition py_len (v : value) : M Z :=
  match v with
  | VList l => ret (Z.of_nat (length l))
  | VStr s => ret (Z.of_nat (String.length s))
  | VDict d => ret (Z.of_nat (length d))
  | _ => raise TypeError
  end.

(** [a * b] on two integers, the operands of the notebook's one
    product; other operand types are not modelled and are rejected. *)
Definition py_mul (a b : value) : M value :=
  match a, b with
  | VInt x, VInt y => ret (VInt (x * y))
  | _, _ => raise TypeError
  end.

(** [l.extend(l')] and [l.append(v)], as the values they leave in [l],
    for lists; other iterables, which [extend] accepts too, are not
    modelled and are rejected. *)
Definition py_extend (l l' : value) : M value :=
  match l, l' with
  | VList a, VList b => ret (VList (a ++ b))
  | _, _ => raise TypeError
  end.

Definition py_append (l v : value) : M value :=
  match l with
  | VList a => ret (VList (a ++ [v]))
  | _ => raise TypeError
  end.

(** [l[i]] on a list, with Python's negative indices. *)
Definition py_index {A} (l : list A) (i : Z) : result A :=
  let n := Z.of_nat (length l) in
  let j := (if i <? 0 then i + n else i)%Z in
  if ((0 <=? j) && (j <? n))%Z then
    match l !! Z.to_nat j with
    | Some a => inr a
    | None => inl IndexError
    end
  else inl IndexError.

(** [int(v)] where the notebook applies it to an integer parameter. *)
Definition as_int (v : value) : M Z :=
  match v with
  | VInt z => ret z
  | _ => raise TypeError
  end.

(** *** Time arithmetic

    [datetime.timedelta] and [pandas.Timestamp] are library classes: what
    they raise is raised inside library code. *)

Definition seconds_per_day : Z := 86400.

(** [datetime.timedelta] holds between -999999999 and 999999999 days
    (plus a fraction of a day); its constructor raises beyond. *)
Definition timedelta_ok (s : Z) : bool :=
  ((-999999999 <=? s / seconds_per_day) && (s / seconds_per_day <=? 999999999))%Z.

Definition timedelta_seconds (s : Z) : M value :=
  if timedelta_ok s then ret (VTimedelta s)
  else raise (LibraryError "OverflowError").

Definition timedelta_days (d : Z) : M value := timedelta_seconds (d * seconds_per_day).
Definition timedelta_hours (h : Z) : M value := timedelta_seconds (h * 3600).
Definition timedelta_weeks (w : Z) : M value := timedelta_seconds (w * 7 * seconds_per_day).

(** A pandas Timestamp is a signed 64-bit count of nanoseconds; in whole
    seconds that is the range below. *)
Definition timestamp_max : Z := 9223372036.
Definition timestamp_ok (t : Z) : bool :=
  ((- timestamp_max <=? t) && (t <=? timestamp_max))%Z.

(** [a + b] where the notebook uses it: a Timestamp plus a timedelta,
    for timedeltas that pandas can hold itself (about 292 years), as
    are all that the horizon slider offers. *)
Definition py_add (a b : value) : M value :=
  match a, b with
  | VTimestamp t, VTimedelta d =>
      if timestamp_ok (t + d) then ret (VTimestamp (t + d))
      else raise (LibraryError "OutOfBoundsDatetime")
  | _, _ => raise TypeError
  end.

(** [pd.Timestamp(datetime.strptime(str(v), fmt).strftime(fmt), freq=...)]
    with [fmt = "%Y-%m-%d %H:%M:%S"]: a timestamp of whole seconds
    prints in that format and parses back to itself; anything else is
    rejected by [strptime]. *)
Definition reparse_timestamp (v : value) : M value :=
  match v with
  | VTimestamp t => ret (VTimestamp t)
  | _ => raise (LibraryError "ValueError")
  end.

(** [int(np.log10(n))] for a positive integer: the number of decimal
    digits less one.  The source takes the logarithm in binary floating
    point, which can round up to the next whole number just below a
    large power of ten (from about [10^15] on), and it raises for
    [n <= 0]; the definition stands for the source on positive integers
    below that size, and the context lengths of the notebook are 91 and
    2184. *)
Fixpoint ilog10_fuel (fuel : nat) (n : Z) : Z :=
  match fuel with
  | O => 0
  | S f => if (n <? 10)%Z then 0%Z else (1 + ilog10_fuel f (n / 10))%Z
  end.

Definition ilog10 (n : Z) : Z := ilog10_fuel (Z.to_nat (Z.log2 n) + 1) n.

(** [int(n * 0.75)]: the product is exact in binary floating point as
    long as [3n] has at most 53 bits, which covers every [n] below
    [2^51]; there it is the rational [3n/4] truncated toward zero. *)
Definition int_three_quarters (n : Z) : Z := Z.quot (n * 3) 4.

(** ** Widgets *)

(** An [ipywidgets.IntSlider]. *)
Record int_slider : Type := IntSlider {
  s_min : Z;
  s_max : Z;
  s_step : Z;
  s_value : Z
}.

(** The constructor rejects an empty range.  (It also moves a value
    outside the range to the nearest bound; the cells build no such
    slider for a context length of 2 or more.) *)
Definition mk_slider (s : int_slider) : M int_slider :=
  if (s_max s <? s_min s)%Z then raise (LibraryError "TraitError")
  else ret s.

(** [IntSlider(min=0, max=len(mnemonics)-1, value=0)], given [len(mnemonics)]. *)
Definition stock_id_slider (n : Z) : int_slider := IntSlider 0 (n - 1) 1 0.

(** The positions of a slider: from [min] upwards in steps of [step],
    not beyond [max].  These are the only values it hands to a callback. *)
Definition slider_values (s : int_slider) : list Z :=
  if (0 <? s_step s)%Z
  then (fun k => s_min s + k * s_step s)%Z
         <$> seqZ 0 ((s_max s - s_min s) / s_step s + 1)
  else [].

Definition slider_repr (s : int_slider) : value :=
  VDict [("min", VInt (s_min s)); ("max", VInt (s_max s));
         ("step", VInt (s_step s)); ("value", VInt (s_value s))].

(** One press of the "Run Interact" button, with the widget values. *)
Record click : Type := Click {
  stock_id : Z;
  forecast_horizon : Z;
  confidence : Z;
  history_plot : Z;
  show_samples : bool
}.

(** The stock symbols configured in the notebook. *)
Definition mnemonics : list value :=
  [VStr "CON"; VStr "DAI"; VStr "PAH3"; VStr "BMW"; VStr "VOW3"].

(** ** The notebook's code cells

    One definition per code cell, in the order of the file.  Each use of
    a variable is a [load], each assignment a [store], arguments are
    evaluated left to right.  [import]s and [print]s are left out, except
    that the names a [print] reads are read; so are the history
    variables that IPython keeps of its own accord ([In], [Out], [_]). *)

Section Notebook.

Variable lib : library.

(** Cell "Define parameters".  [interval_literal] is the string written
    on its first line (['D'] in the file, "Use D or H"). *)
Definition cell_parameters (interval_literal : string) : M unit :=
  run store "interval" (VStr interval_literal) ;;
  (* assert interval == 'D' or interval == 'H' *)
  c <~ (a <~ load "interval" ;;
        if eq_str a "D" then ret true
        else b <~ load "interval" ;; ret (eq_str b "H")) ;;
  run py_assert c ;;
  (* if interval == 'D': ... elif interval == 'H': ...   (no else) *)
  run (a <~ load "interval" ;;
   if eq_str a "D" then
     run store "prediction_length" (VInt 91) ;;
     store "context_length" (VInt 91)
   else
     b <~ load "interval" ;;
     if eq_str b "H" then
       run store "prediction_length" (VInt 2184) ;;
       store "context_length" (VInt 2184)
     else ret tt) ;;
  run store "mnemonics" (VList mnemonics) ;;
  run store "target_column" (VStr "EndPrice") ;;
  run store "covariate_columns"
    (VList [VStr "StartPrice"; VStr "MinPrice"; VStr "MaxPrice"]) ;;
  run store "train_test_split" (VFloat 0.8) ;;
  run store "num_test_windows" (VInt 4) ;;
  pl <~ load "prediction_length" ;;
  cl <~ load "context_length" ;;
  iv <~ load "interval" ;;
  store "hyperparameters"
    (VDict [("prediction_length", VStr (py_str pl));
            ("context_length", VStr (py_str cl));
            ("time_freq", iv);
            ("epochs", VStr "200");
            ("early_stopping_patience", VStr "40");
            ("num_layers", VStr "2");
            ("num_cells", VStr "40");
            ("mini_batch_size", VStr "128");
            ("learning_rate", VStr "1e-3");
            ("dropout_rate", VStr "0.1");
            ("likelihood", VStr "gaussian")]).

(** Cell "Define IAM role and session". *)
Definition cell_session : M unit :=
  role <~ call lib GetExecutionRole [] ;;
  run store "role" role ;;
  session <~ call lib Session [] ;;
  run store "session" session ;;
  s <~ load "session" ;;
  region <~ call lib BotoRegionName [s] ;;
  run store "region" region ;;
  r <~ load "region" ;;
  image <~ call lib GetImageUri [r; VStr "forecasting-deepar"; VStr "latest"] ;;
  run store "image_name" image ;;
  _ <~ load "image_name" ;;
  run store "s3_data_key" (VStr "dbg-stockdata/source") ;;
  s <~ load "session" ;;
  bucket <~ call lib DefaultBucket [s] ;;
  run store "s3_bucket" bucket ;;
  b <~ load "s3_bucket" ;;
  k <~ load "s3_data_key" ;;
  i <~ load "interval" ;;
  store "s3_output_path"
    (VStr ("s3://" +:+ py_str b +:+ "/" +:+ py_str k +:+ "/" +:+ py_str i +:+ "/output")).

(** Cell that loads the resampled table. *)
Definition cell_load : M unit :=
  run store "metrics" (VList []) ;;
  m <~ load "metrics" ;;
  c <~ load "covariate_columns" ;;
  m' <~ py_extend m c ;;
  run store "metrics" m' ;;
  m <~ load "metrics" ;;
  t <~ load "target_column" ;;
  m' <~ py_append m t ;;
  run store "metrics" m' ;;
  i <~ load "interval" ;;
  b <~ load "s3_bucket" ;;
  k <~ load "s3_data_key" ;;
  mn <~ load "mnemonics" ;;
  me <~ load "metrics" ;;
  r <~ call_load lib [i; b; k; mn; me] ;;
  run store "stock_data_series" (fst r) ;;
  run store "symbols" (snd r) ;;
  d <~ load "stock_data_series" ;;
  _ <~ call lib Shape [d] ;;
  ret tt.

(** Cell that splits the table and writes the two channels. *)
Definition cell_split : M unit :=
  d <~ load "stock_data_series" ;;
  t <~ load "target_column" ;;
  c <~ load "covariate_columns" ;;
  i <~ load "interval" ;;
  s <~ load "train_test_split" ;;
  n <~ load "num_test_windows" ;;
  r <~ call_split lib [d; t; c; i; s; n] ;;
  run (let '(train, test, start_dt, end_dt) := r in
   run store "train_data" train ;;
   run store "test_data" test ;;
   run store "train_start_dt" (VTimestamp start_dt) ;;
   store "train_end_dt" (VTimestamp end_dt)) ;;
  e <~ load "train_end_dt" ;;
  e' <~ reparse_timestamp e ;;
  _ <~ load "interval" ;;
  run store "end_training" e' ;;
  td <~ load "train_data" ;;
  i <~ load "interval" ;;
  b <~ load "s3_bucket" ;;
  k <~ load "s3_data_key" ;;
  ch <~ call lib WriteDictsToFile [td; i; b; k; VStr "train"] ;;
  run store "train_channel" ch ;;
  td <~ load "test_data" ;;
  i <~ load "interval" ;;
  b <~ load "s3_bucket" ;;
  k <~ load "s3_data_key" ;;
  ch <~ call lib WriteDictsToFile [td; i; b; k; VStr "test"] ;;
  run store "test_channel" ch ;;
  _ <~ load "train_channel" ;;
  _ <~ load "test_channel" ;;
  ret tt.

(** The two plotting cells. *)
Definition cell_metrics_plot : M unit :=
  mn <~ load "mnemonics" ;;
  me <~ load "metrics" ;;
  d <~ load "stock_data_series" ;;
  _ <~ call lib MetricsPlot [mn; me; d] ;;
  ret tt.

Definition cell_timeseries_plot : M unit :=
  mn <~ load "mnemonics" ;;
  me <~ load "metrics" ;;
  d <~ load "stock_data_series" ;;
  _ <~ call lib TimeseriesPlot [mn; me; d] ;;
  ret tt.

(** Cell "Model Training". *)
Definition cell_train : M unit :=
  s <~ load "session" ;;
  im <~ load "image_name" ;;
  ro <~ load "role" ;;
  i <~ load "interval" ;;
  o <~ load "s3_output_path" ;;
  est <~ call lib EstimatorConstruct
           [s; im; ro; VInt 1; VStr "ml.c5.18xlarge";
            VStr ("dbg-deepar-" +:+ py_str i); o] ;;
  run store "estimator" est ;;
  e <~ load "estimator" ;;
  h <~ load "hyperparameters" ;;
  _ <~ call lib SetHyperparameters [e; h] ;;
  tr <~ load "train_channel" ;;
  te <~ load "test_channel" ;;
  run store "data_channels" (VDict [("train", tr); ("test", te)]) ;;
  e <~ load "estimator" ;;
  dc <~ load "data_channels" ;;
  _ <~ call lib Fit [e; dc; VBool true] ;;
  e <~ load "estimator" ;;
  job <~ call lib LatestTrainingJobName [e] ;;
  run store "estimator_job" job ;;
  _ <~ load "estimator_job" ;;
  ret tt.

(** Cell "Model Deployment". *)
Definition cell_deploy : M unit :=
  e <~ load "estimator" ;;
  p <~ call lib Deploy [e; VInt 1; VStr "ml.m4.xlarge"] ;;
  run store "predictor" p ;;
  p <~ load "predictor" ;;
  _ <~ call lib Endpoint [p] ;;
  ret tt.

(** Cell that re-attaches to the endpoint by the training job's name. *)
Definition cell_attach : M unit :=
  job <~ load "estimator_job" ;;
  p <~ call lib PredictorConstruct [job] ;;
  store "predictor" p.

(** Cell that queries a forecast for BMW. *)
Definition cell_predict : M unit :=
  t <~ load "target_column" ;;
  c <~ load "covariate_columns" ;;
  d <~ load "stock_data_series" ;;
  pl <~ load "prediction_length" ;;
  r <~ call_query lib [VStr "BMW"; t; c; d; pl] ;;
  run (let '(ts, dynamic_feat, observed) := r in
   run store "ts" ts ;;
   run store "dynamic_feat" dynamic_feat ;;
   store "observed" observed) ;;
  p <~ load "predictor" ;;
  ts <~ load "ts" ;;
  df <~ load "dynamic_feat" ;;
  pr <~ call lib Predict
          [p; ts; df; VList [VFloat 0.10; VFloat 0.5; VFloat 0.90]; VBool false] ;;
  run store "prediction" pr ;;
  pr <~ load "prediction" ;;
  _ <~ call lib Head [pr] ;;
  ret tt.

Definition cell_plot_prediction : M unit :=
  ts <~ load "ts" ;;
  ob <~ load "observed" ;;
  pr <~ load "prediction" ;;
  pr' <~ load "prediction" ;;
  col <~ call lib LastColumn [pr'] ;;
  _ <~ call lib PlotPredictedObserved [ts; ob; pr; col] ;;
  ret tt.

(** The [forecast_date] argument of [plot_interact].  The source reads
    [end_training + timedelta(days=h) if interval == "D" else
     timedelta(hours=h) if interval == "H" else ...]: a conditional
    expression binds weaker than [+], so the sum is the value of the
    first branch only, and conditions are evaluated before branches. *)
Definition forecast_date (h : Z) : M value :=
  i <~ load "interval" ;;
  if eq_str i "D" then
    e <~ load "end_training" ;;
    d <~ timedelta_days h ;;
    py_add e d
  else
    i <~ load "interval" ;;
    if eq_str i "H" then timedelta_hours h
    else
      i <~ load "interval" ;;
      if eq_str i "W" then timedelta_weeks h
      else
        i <~ load "interval" ;;
        if eq_str i "M" then timedelta_days (h * 30)
        else ret (VInt 0).

(** The callback wired to the widgets. *)
Definition plot_interact (c : click) : M unit :=
  p <~ load "predictor" ;;
  mn <~ load "mnemonics" ;;
  d <~ load "stock_data_series" ;;
  t <~ load "target_column" ;;
  cv <~ load "covariate_columns" ;;
  pl <~ load "prediction_length" ;;
  pl' <~ load "prediction_length" ;;
  hp <~ py_mul (VInt (history_plot c)) pl' ;;
  fd <~ forecast_date (forecast_horizon c) ;;
  _ <~ call lib Plot
         [p; VInt (stock_id c); mn; d; t; cv; pl; hp; fd;
          VBool (show_samples c); VInt (confidence c)] ;;
  ret tt.

(** The user presses "Run Interact" once per element of [clicks].  A
    press whose callback raises ends the run here; ipywidgets itself
    shows the traceback of such a press and carries on, so a run with a
    failing press stands for the notebook only up to that press. *)
Definition button_presses (clicks : list click) : M unit :=
  foldr (fun c k => run plot_interact c ;; k) (ret tt) clicks.

(** The widgets of the interactive plot are built (arguments first, then
    the constructor) and the callback is registered.  The cell defines
    the callback under a decorator, [@interact_manual(...)] before
    [def plot_interact(...)]: the name [plot_interact] is bound to what the
    decorator answers. *)
Definition interact_widgets : M unit :=
  run store "style" (VDict [("description_width", VStr "initial")]) ;;
  (* stock_id=IntSlider(min=0, max=len(mnemonics)-1, value=0, style=style) *)
  mn <~ load "mnemonics" ;;
  n <~ py_len mn ;;
  _ <~ load "style" ;;
  s1 <~ mk_slider (stock_id_slider n) ;;
  (* forecast_horizon=IntSlider(min=0, max=int(context_length*0.75),
       steps=int(np.log10(context_length))+1,
       value=int(np.log10(context_length))+1, style=style);
     [steps] is not a trait of the slider, its step stays 1 *)
  c1 <~ load "context_length" ;;
  n1 <~ as_int c1 ;;
  c2 <~ load "context_length" ;;
  _ <~ as_int c2 ;;
  c3 <~ load "context_length" ;;
  n3 <~ as_int c3 ;;
  _ <~ load "style" ;;
  s2 <~ mk_slider (IntSlider 0 (int_three_quarters n1) 1 (ilog10 n3 + 1)) ;;
  _ <~ load "style" ;;
  s3 <~ mk_slider (IntSlider 55 95 5 80) ;;
  _ <~ load "style" ;;
  s4 <~ mk_slider (IntSlider 1 20 1 1) ;;
  f <~ call lib InteractManual
         [slider_repr s1; slider_repr s2; slider_repr s3; slider_repr s4;
          VBool false; VBool false] ;;
  store "plot_interact" f.

(** Cell with the interactive plot: once it is displayed, the user
    presses the button any number of times before moving on. *)
Definition cell_interact (clicks : list click) : M unit :=
  run interact_widgets ;;
  button_presses clicks.

(** Cell "Delete EndPoint". *)
Definition cell_delete : M unit :=
  p <~ load "predictor" ;;
  _ <~ call lib DeleteEndpoint [p] ;;
  ret tt.

(** The code cells in the order of the file. *)
Definition notebook (interval_literal : string) (clicks : list click) : list (M unit) :=
  [ cell_parameters interval_literal; cell_session; cell_load; cell_split;
    cell_metrics_plot; cell_timeseries_plot; cell_train; cell_deploy;
    cell_attach; cell_predict; cell_plot_prediction; cell_interact clicks;
    cell_delete ].

(** "Run All": cells run top to bottom and the run stops at the first
    exception. *)
Definition run_cells (cells : list (M unit)) : M unit :=
  foldr (fun c k => run c ;; k) (ret tt) cells.

End Notebook.

Definition fresh_kernel : state := State ∅ [] [].

Definition run_notebook (lib : library) (interval_literal : string)
    (clicks : list click) : result unit * state :=
  run_cells (notebook lib interval_literal clicks) fresh_kernel.


(** A library in which every call succeeds, for concrete runs. *)
Definition happy_library : library :=
  Library (fun n _ _ => inr (VObject (N.of_nat n)))
          (fun n _ => inr (VObject (N.of_nat n), VList []))
          (fun n _ => inr (VObject (N.of_nat n), VObject (N.of_nat n), 1451606400, 1514764800)%Z)
          (fun n _ => inr (VObject (N.of_nat n), VList [], VObject (N.of_nat n))).

(** A kernel as the first cells leave it for daily data, as far as
    [forecast_date] looks at it. *)
Definition daily_kernel : state :=
  State (<["interval" := VStr "D"]> (<["end_training" := VTimestamp 1514764800]> ∅)) [] [].

Definition two_clicks : list click :=
  [Click 3 2 80 1 false; Click 4 68 95 20 true].


(** * The helper module, from the specification

    [deepar_util] is imported by the notebook but its source is not at
    hand.  The definitions below follow what the specification says of
    the query builder and of the prediction client. *)

(** JSON documents, as Python's [json] module sees them. *)
Inductive json : Type :=
| JNull
| JInt (z : Z)
| JNum (x : float)
| JStr (s : string)
| JArr (items : list json)
| JObj (fields : list (string * json)).

(** Field of an object: the first binding of the key. *)
Fixpoint assoc {A} (k : string) (l : list (string * A)) : option A :=
  match l with
  | [] => None
  | (k', v) :: l' => if String.eqb k k' then Some v else assoc k l'
  end.

Definition jfield (k : string) (j : json) : option json :=
  match j with
  | JObj fields => assoc k fields
  | _ => None
  end.

Definition jfloats (l : list float) : json := JArr (JNum <$> l).

Definition jfloats_inv (j : json) : option (list float) :=
  match j with
  | JArr items => mapM (fun i => match i with JNum x => Some x | _ => None end) items
  | _ => None
  end.

Definition jarrays (l : list (list float)) : json := JArr (jfloats <$> l).

Definition jarrays_inv (j : json) : option (list (list float)) :=
  match j with
  | JArr items => mapM jfloats_inv items
  | _ => None
  end.

(** Modelled from the spec: the "wide time-indexed table" the helper
    [load_resampled_from_s3] returns: one row per time point, one
    column per stock symbol and metric. *)
Record table : Type := Table {
  t_index : list Z;                                  (* time points, in seconds *)
  t_columns : gmap (string * string) (list float)   (* (symbol, metric) to values *)
}.

(** Every column has one value per time point. *)
Definition table_wf (t : table) : Prop :=
  map_Forall (fun _ col => length col = length (t_index t)) (t_columns t).

(** Modelled from the spec: the helper [query_for_stock], which builds
    the parts of a forecast request: "a series of historical target
    values" and "dynamic-feature arrays covering the full forecast
    horizon".  The history is the target column less its last
    [prediction_length] points; the feature arrays are the covariate
    columns in full, so that they reach over the horizon; the third
    result is the target column in full, which the forecast is plotted
    against. *)
Definition query_for_stock (stock target : string) (covariates : list string)
    (t : table) (prediction_length : nat)
  : option (list float * list (list float) * list float) :=
  tgt ← t_columns t !! (stock, target);
  feats ← mapM (fun c => t_columns t !! (stock, c)) covariates;
  Some (take (length tgt - prediction_length) tgt, feats, tgt).

(** *** The prediction client and the endpoint it talks to *)

(** Modelled from the spec: the request of [DeepARPredictor.predict]:
    "JSON with a series of historical target values, optional
    dynamic-feature arrays covering the full forecast horizon, and a list
    of requested quantiles". *)
Definition encode_request (ts : list float) (dynamic_feat : option (list (list float)))
    (quantiles : list float) : json :=
  JObj ([("target", jfloats ts)]
        ++ match dynamic_feat with
           | Some d => [("dynamic_feat", jarrays d)]
           | None => []
           end
        ++ [("quantiles", jfloats quantiles)]).

(** Modelled from the spec: the endpoint's reading of a request. *)
Definition decode_request (request : json)
  : option (list float * option (list (list float)) * list float) :=
  ts ← jfield "target" request ≫= jfloats_inv;
  qs ← jfield "quantiles" request ≫= jfloats_inv;
  match jfield "dynamic_feat" request with
  | Some d => d' ← jarrays_inv d; Some (ts, Some d', qs)
  | None => Some (ts, None, qs)
  end.

Section Endpoint.

(** The hosted model is a black box: [forecaster] stands for whatever it
    computes for a history, its features, a quantile and a step ahead;
    [quantile_key] is the way the service prints a quantile as a key. *)
Variable prediction_length : nat.
Variable quantile_key : float -> string.
Variable forecaster : list float -> option (list (list float)) -> float -> nat -> float.

(** Modelled from the spec: the service's answer: "JSON mapping each
    requested quantile to a forecasted value sequence of length equal to
    the configured prediction horizon". *)
Definition invoke_endpoint (request : json) : option json :=
  q ← decode_request request;
  let '(ts, df, qs) := q in
  Some (JObj ((fun q => (quantile_key q,
                         jfloats (forecaster ts df q <$> seq 0 prediction_length)))
              <$> qs)).

(** Modelled from the spec: the client "deserializes a quantile forecast
    response": one labelled column per key of the response. *)
Definition decode_response (response : json) : option (list (string * list float)) :=
  match response with
  | JObj fields => mapM (fun kv => col ← jfloats_inv kv.2; Some (kv.1, col)) fields
  | _ => None
  end.

(** Modelled from the spec: [DeepARPredictor.predict], "a thin subclass
    of a generic prediction client that serializes a query to JSON and
    deserializes a quantile forecast response". *)
Definition predict (ts : list float) (dynamic_feat : option (list (list float)))
    (quantiles : list float) : option (list (string * list float)) :=
  invoke_endpoint (encode_request ts dynamic_feat quantiles) ≫= decode_response.

End Endpoint.

(** ** Vocabulary of the properties *)

(** Both parameters are bound to [k], and every read of either so far
    returned [k]. *)
Definition params_inv (k : Z) (st : state) : Prop :=
  ns st !! "prediction_length" = Some (VInt k)
  /\ ns st !! "context_length" = Some (VInt k)
  /\ forall x v, (x, v) ∈ reads st ->
       x = "prediction_length" \/ x = "context_length" -> v = VInt k.

(** A piece of cell code that keeps them so. *)
Definition preserves {A} (k : Z) (m : M A) : Prop :=
  forall st, params_inv k st -> params_inv k (m st).2.

(** A computation that leaves the kernel as it found it. *)
Definition pure {A} (m : M A) : Prop := forall st, (m st).2 = st.

(** Library calls are numbered in the order of their first use. *)
Definition api_call_code (c : api_call) : nat :=
  match c with
  | GetExecutionRole => 0 | Session => 1 | BotoRegionName => 2 | GetImageUri => 3
  | DefaultBucket => 4 | LoadResampledFromS3 => 5 | Shape => 6
  | GenerateTrainTestSet => 7 | WriteDictsToFile => 8 | MetricsPlot => 9
  | TimeseriesPlot => 10 | EstimatorConstruct => 11 | SetHyperparameters => 12
  | Fit => 13 | LatestTrainingJobName => 14 | Deploy => 15 | Endpoint => 16
  | PredictorConstruct => 17 | QueryForStock => 18 | Predict => 19 | Head => 20
  | LastColumn => 21 | PlotPredictedObserved => 22 | InteractManual => 23
  | Plot => 24 | DeleteEndpoint => 25
  end.

(** The call that carries a number. *)
Definition api_call_of_code (n : nat) : option api_call :=
  nth_error
    [ GetExecutionRole; Session; BotoRegionName; GetImageUri; DefaultBucket;
      LoadResampledFromS3; Shape; GenerateTrainTestSet; WriteDictsToFile;
      MetricsPlot; TimeseriesPlot; EstimatorConstruct; SetHyperparameters; Fit;
      LatestTrainingJobName; Deploy; Endpoint; PredictorConstruct; QueryForStock;
      Predict; Head; LastColumn; PlotPredictedObserved; InteractManual; Plot;
      DeleteEndpoint ] n.



(** Errors raised inside library code, as opposed to the notebook's own. *)
Definition is_library_error (e : exn) : bool :=
  match e with
  | LibraryError _ => true
  | _ => false
  end.




(** *** Kernels and libraries for concrete runs *)

(** The kernel after the first two cells of a daily run in which every
    library call succeeds. *)
Definition session_kernel : state :=
  (run_cells [cell_parameters "D"; cell_session happy_library] fresh_kernel).2.

(** The kernel of a daily run in which every library call succeeds, when
    the interactive plot is about to be built. *)
Definition plot_kernel : state :=
  (run_cells (take 11 (notebook happy_library "D" [])) fresh_kernel).2.


(** *** The configuration cell *)

(** The interval is valid and [k] is the length configured for it. *)
Definition length_for (i : string) (k : Z) : Prop :=
  i = "D" /\ k = 91%Z \/ i = "H" /\ k = 2184%Z.

(** The variables the configuration cell assigns. *)
Definition configuration_names : list string :=
  [ "interval"; "prediction_length"; "context_length"; "mnemonics"; "target_column";
    "covariate_columns"; "train_test_split"; "num_test_windows"; "hyperparameters" ].

(** The values of four of the notebook's variables, as library calls
    receive them. *)
Definition covariate_columns : value :=
  VList [VStr "StartPrice"; VStr "MinPrice"; VStr "MaxPrice"].

Definition metrics : value :=
  VList [VStr "StartPrice"; VStr "MinPrice"; VStr "MaxPrice"; VStr "EndPrice"].

Definition s3_data_key : value := VStr "dbg-stockdata/source".

Definition hyperparameters (i : string) (k : Z) : value :=
  VDict [("prediction_length", VStr (pretty k));
         ("context_length", VStr (pretty k));
         ("time_freq", VStr i);
         ("epochs", VStr "200");
         ("early_stopping_patience", VStr "40");
         ("num_layers", VStr "2");
         ("num_cells", VStr "40");
         ("mini_batch_size", VStr "128");
         ("learning_rate", VStr "1e-3");
         ("dropout_rate", VStr "0.1");
         ("likelihood", VStr "gaussian")].

(** The namespace the configuration cell leaves for a valid interval [i]
    with lengths [k], on top of whatever [n] held. *)
Definition configured (i : string) (k : Z) (n : gmap string value) : gmap string value :=
  <["hyperparameters" := hyperparameters i k]>
  (<["num_test_windows" := VInt 4]>
  (<["train_test_split" := VFloat 0.8]>
  (<["covariate_columns" := covariate_columns]>
  (<["target_column" := VStr "EndPrice"]>
  (<["mnemonics" := VList mnemonics]>
  (<["context_length" := VInt k]>
  (<["prediction_length" := VInt k]>
  (<["interval" := VStr i]> n)))))))).

(** The variable each cell after the session cell reads first. *)
Definition first_reads (lib : library) (clicks : list click) : list (M unit * string) :=
  [ (cell_load lib, "covariate_columns");
    (cell_split lib, "stock_data_series");
    (cell_metrics_plot lib, "mnemonics");
    (cell_timeseries_plot lib, "mnemonics");
    (cell_train lib, "session");
    (cell_deploy lib, "estimator");
    (cell_attach lib, "estimator_job");
    (cell_predict lib, "target_column");
    (cell_plot_prediction lib, "ts");
    (cell_interact lib clicks, "mnemonics");
    (cell_delete lib, "predictor") ].

(** The variables each cell assigns, cell by cell, the name of the
    callback that the interactive cell defines among them. *)
Definition writes (lib : library) (i : string) (clicks : list click)
  : list (M unit * list string) :=
  [ (cell_parameters i, configuration_names);
    (cell_session lib,
     ["role"; "session"; "region"; "image_name"; "s3_data_key"; "s3_bucket";
      "s3_output_path"]);
    (cell_load lib, ["metrics"; "stock_data_series"; "symbols"]);
    (cell_split lib,
     ["train_data"; "test_data"; "train_start_dt"; "train_end_dt"; "end_training";
      "train_channel"; "test_channel"]);
    (cell_metrics_plot lib, []);
    (cell_timeseries_plot lib, []);
    (cell_train lib, ["estimator"; "data_channels"; "estimator_job"]);
    (cell_deploy lib, ["predictor"]);
    (cell_attach lib, ["predictor"]);
    (cell_predict lib, ["ts"; "dynamic_feat"; "observed"; "prediction"]);
    (cell_plot_prediction lib, []);
    (cell_interact lib clicks, ["style"; "plot_interact"]);
    (cell_delete lib, []) ].

(** The variables that two different entries of a list of such sets share. *)
Definition shared_writes (ws : list (list string)) : list string :=
  remove_dups
    (j1 ← seq 0 (length ws); j2 ← seq 0 (length ws);
     if decide (j1 = j2) then []
     else filter (fun x => x ∈ default [] (ws !! j2)) (default [] (ws !! j1))).

(** Cell code that leaves every variable outside [W] as it found it. *)
Definition frames {A} (W : list string) (m : M A) : Prop :=
  forall st x, x ∉ W -> ns (m st).2 !! x = ns st !! x.

(** *** Calls and their answers *)

(** One call of library code with the answer it got.  The three helpers
    whose results the notebook unpacks answer with tuples. *)
Inductive exchange : Type :=
| Called (c : api_call) (args : list value) (v : value)
| Loaded (args : list value) (v : value * value)
| Partitioned (args : list value) (v : value * value * Z * Z)
| Queried (args : list value) (v : value * value * value).

(** The [k]-th call of the log was this call, and the library gave this
    answer. *)
Definition answered (lib : library) (log : list event) (k : nat) (x : exchange) : Prop :=
  match x with
  | Called c args v => log !! k = Some (c, args) /\ lib_call lib k c args = inr v
  | Loaded args v =>
      log !! k = Some (LoadResampledFromS3, args) /\ lib_load lib k args = inr v
  | Partitioned args v =>
      log !! k = Some (GenerateTrainTestSet, args) /\ lib_split lib k args = inr v
  | Queried args v =>
      log !! k = Some (QueryForStock, args) /\ lib_query lib k args = inr v
  end.

(** What the library answered in a run, call by call. *)
Record answers : Type := Answers {
  a_role : value;
  a_session : value;
  a_region : value;
  a_image : value;
  a_bucket : value;
  a_table : value;
  a_symbols : value;
  a_shape : value;
  a_train : value;
  a_test : value;
  a_start : Z;
  a_end : Z;
  a_train_channel : value;
  a_test_channel : value;
  a_metrics_plot : value;
  a_timeseries_plot : value;
  a_estimator : value;
  a_hyperparameters : value;
  a_fit : value;
  a_job : value;
  a_deployed : value;
  a_endpoint : value;
  a_predictor : value;
  a_ts : value;
  a_dynamic_feat : value;
  a_observed : value;
  a_prediction : value;
  a_head : value;
  a_column : value;
  a_plot : value;
  a_interact : value
}.

(** The calls of a completed run before the button is pressed, in
    program order, each with the answer that flows on. *)
Definition exchanges (i : string) (k : Z) (a : answers) : list exchange :=
  [ Called GetExecutionRole [] (a_role a);
    Called Session [] (a_session a);
    Called BotoRegionName [a_session a] (a_region a);
    Called GetImageUri [a_region a; VStr "forecasting-deepar"; VStr "latest"] (a_image a);
    Called DefaultBucket [a_session a] (a_bucket a);
    Loaded [VStr i; a_bucket a; s3_data_key; VList mnemonics; metrics]
           (a_table a, a_symbols a);
    Called Shape [a_table a] (a_shape a);
    Partitioned
      [a_table a; VStr "EndPrice"; covariate_columns; VStr i; VFloat 0.8; VInt 4]
      (a_train a, a_test a, a_start a, a_end a);
    Called WriteDictsToFile [a_train a; VStr i; a_bucket a; s3_data_key; VStr "train"]
           (a_train_channel a);
    Called WriteDictsToFile [a_test a; VStr i; a_bucket a; s3_data_key; VStr "test"]
           (a_test_channel a);
    Called MetricsPlot [VList mnemonics; metrics; a_table a] (a_metrics_plot a);
    Called TimeseriesPlot [VList mnemonics; metrics; a_table a] (a_timeseries_plot a);
    Called EstimatorConstruct
           [a_session a; a_image a; a_role a; VInt 1; VStr "ml.c5.18xlarge";
            VStr ("dbg-deepar-" +:+ i);
            VStr ("s3://" +:+ py_str (a_bucket a) +:+ "/" +:+ "dbg-stockdata/source"
                  +:+ "/" +:+ i +:+ "/output")]
           (a_estimator a);
    Called SetHyperparameters [a_estimator a; hyperparameters i k] (a_hyperparameters a);
    Called Fit
           [a_estimator a;
            VDict [("train", a_train_channel a); ("test", a_test_channel a)];
            VBool true]
           (a_fit a);
    Called LatestTrainingJobName [a_estimator a] (a_job a);
    Called Deploy [a_estimator a; VInt 1; VStr "ml.m4.xlarge"] (a_deployed a);
    Called Endpoint [a_deployed a] (a_endpoint a);
    Called PredictorConstruct [a_job a] (a_predictor a);
    Queried [VStr "BMW"; VStr "EndPrice"; covariate_columns; a_table a; VInt k]
            (a_ts a, a_dynamic_feat a, a_observed a);
    Called Predict
           [a_predictor a; a_ts a; a_dynamic_feat a;
            VList [VFloat 0.10; VFloat 0.5; VFloat 0.90]; VBool false]
           (a_prediction a);
    Called Head [a_prediction a] (a_head a);
    Called LastColumn [a_prediction a] (a_column a);
    Called PlotPredictedObserved [a_ts a; a_observed a; a_prediction a; a_column a]
           (a_plot a);
    Called InteractManual
           [slider_repr (stock_id_slider (Z.of_nat (length mnemonics)));
            slider_repr (IntSlider 0 (int_three_quarters k) 1 (ilog10 k + 1));
            slider_repr (IntSlider 55 95 5 80);
            slider_repr (IntSlider 1 20 1 1);
            VBool false; VBool false]
           (a_interact a) ].

(** The arguments of [util.plot] for one press of the button. *)
Definition plot_arguments (p mn d tc cv : value) (k : Z) (fd : value) (c : click)
  : list value :=
  [p; VInt (stock_id c); mn; d; tc; cv; VInt k; VInt (history_plot c * k); fd;
   VBool (show_samples c); VInt (confidence c)].

(** The forecast date of a press with horizon [h], for the two valid
    intervals, when training ended at [e]. *)
Definition forecast_date_value (i : string) (e h : Z) (fd : value) : Prop :=
  (i = "D" -> fd = VTimestamp (e + h * 86400))
  /\ (i = "H" -> fd = VTimedelta (h * 3600)).

(** *** How answers flow through a completed run *)

(** The model is trained for the horizon that is later queried and
    plotted: the hyperparameters carry the decimal string of the number
    that [query_for_stock] and every plot receive as prediction length,
    and each plot is asked for a history of [history_plot] such lengths. *)
Definition one_horizon (lib : library) (i : string) (clicks : list click)
    (log : list event) : Prop :=
  exists (n : Z) (s : string) (est x : value) (qargs : list value)
         (q : value * value * value),
    (i = "D" /\ n = 91%Z /\ s = "91" \/ i = "H" /\ n = 2184%Z /\ s = "2184")
    /\ answered lib log 13
         (Called SetHyperparameters
            [est;
             VDict [("prediction_length", VStr s);
                    ("context_length", VStr s);
                    ("time_freq", VStr i);
                    ("epochs", VStr "200");
                    ("early_stopping_patience", VStr "40");
                    ("num_layers", VStr "2");
                    ("num_cells", VStr "40");
                    ("mini_batch_size", VStr "128");
                    ("learning_rate", VStr "1e-3");
                    ("dropout_rate", VStr "0.1");
                    ("likelihood", VStr "gaussian")]] x)
    /\ answered lib log 19 (Queried (qargs ++ [VInt n]) q)
    /\ length qargs = 4
    /\ forall j c, clicks !! j = Some c ->
         exists (before : list value) (fd v : value),
           answered lib log (25 + j)
             (Called Plot
                (before ++ [VInt n; VInt (history_plot c * n); fd;
                            VBool (show_samples c); VInt (confidence c)]) v)
           /\ length before = 6.

(** The two channels reach [fit] under their own names: what
    [generate_train_test_set] returned as training data is written as
    "train", the test data as "test", and the estimator is fitted on
    exactly these two answers, "train" to the first, "test" to the second. *)
Definition channels_reach_fit (lib : library) (i : string) (log : list event) : Prop :=
  exists (sargs : list value) (train test : value) (t0 t1 : Z)
         (bucket key train_channel test_channel est x : value),
    answered lib log 7 (Partitioned sargs (train, test, t0, t1))
    /\ answered lib log 8
         (Called WriteDictsToFile [train; VStr i; bucket; key; VStr "train"] train_channel)
    /\ answered lib log 9
         (Called WriteDictsToFile [test; VStr i; bucket; key; VStr "test"] test_channel)
    /\ answered lib log 14
         (Called Fit
            [est; VDict [("train", train_channel); ("test", test_channel)]; VBool true] x).

(** After the cell that attaches to the endpoint, one predictor is used
    throughout: the one [DeepARPredictor] built from the name of the
    training job answers the query, every plot and the final deletion.
    The predictor that [deploy] returned is only asked for its endpoint. *)
Definition attached_predictor_used (lib : library) (clicks : list click)
    (log : list event) : Prop :=
  exists (est job deployed endpoint p prediction deleted : value)
         (pargs : list value),
    answered lib log 15 (Called LatestTrainingJobName [est] job)
    /\ answered lib log 16 (Called Deploy [est; VInt 1; VStr "ml.m4.xlarge"] deployed)
    /\ answered lib log 17 (Called Endpoint [deployed] endpoint)
    /\ answered lib log 18 (Called PredictorConstruct [job] p)
    /\ answered lib log 20 (Called Predict (p :: pargs) prediction)
    /\ (forall j c, clicks !! j = Some c ->
          exists (rest : list value) (v : value),
            answered lib log (25 + j) (Called Plot (p :: rest) v))
    /\ answered lib log (25 + length clicks) (Called DeleteEndpoint [p] deleted)
    /\ length log = 26 + length clicks.

(** Each press of the button issues exactly one call of [util.plot], in
    the order of the presses, and nothing else: the call carries the
    stock index, the confidence and the sample switch of that press, and
    as forecast date the end of training plus the chosen horizon in days
    for daily data, the bare horizon in hours for hourly data. *)
Definition plots_follow_clicks (lib : library) (i : string) (clicks : list click)
    (log : list event) : Prop :=
  exists (sargs : list value) (train test : value) (t0 t1 : Z)
         (p mn table target covs pl : value),
    length log = 26 + length clicks
    /\ answered lib log 7 (Partitioned sargs (train, test, t0, t1))
    /\ forall j c, clicks !! j = Some c ->
         exists (hp fd v : value),
           answered lib log (25 + j)
             (Called Plot
                [p; VInt (stock_id c); mn; table; target; covs; pl; hp; fd;
                 VBool (show_samples c); VInt (confidence c)] v)
           /\ (i = "D" -> fd = VTimestamp (t1 + forecast_horizon c * 86400))
           /\ (i = "H" -> fd = VTimedelta (forecast_horizon c * 3600)).

(** One bucket and one key prefix serve the whole run: the bucket that
    [default_bucket] answered is where the table is loaded from, where
    both channels are written, and, when it is a string, the bucket of
    the output path, under the same key and the interval. *)
Definition one_s3_location (lib : library) (i : string) (log : list event) : Prop :=
  exists (session bucket mn ms train test train_channel test_channel
          image role out est : value) (loaded : value * value),
    answered lib log 4 (Called DefaultBucket [session] bucket)
    /\ answered lib log 5
         (Loaded [VStr i; bucket; VStr "dbg-stockdata/source"; mn; ms] loaded)
    /\ answered lib log 8
         (Called WriteDictsToFile
            [train; VStr i; bucket; VStr "dbg-stockdata/source"; VStr "train"]
            train_channel)
    /\ answered lib log 9
         (Called WriteDictsToFile
            [test; VStr i; bucket; VStr "dbg-stockdata/source"; VStr "test"]
            test_channel)
    /\ answered lib log 12
         (Called EstimatorConstruct
            [session; image; role; VInt 1; VStr "ml.c5.18xlarge";
             VStr ("dbg-deepar-" +:+ i); out] est)
    /\ forall b, bucket = VStr b ->
         out = VStr ("s3://" +:+ b +:+ "/dbg-stockdata/source/" +:+ i +:+ "/output").

(** The forecast is asked for the table that was used for training: the
    table that [load_resampled_from_s3] answered goes, with the same target
    and covariate columns, both into the split and into the query for
    "BMW", one of the configured symbols; the series and features of the
    query's answer go to [predict] with the quantiles 0.1, 0.5 and 0.9,
    and the plot shows the series, the observed values of the same answer
    and the last column of the prediction. *)
Definition forecast_flow (lib : library) (i : string) (log : list event) : Prop :=
  exists (largs : list value) (table symbols target covs split windows pl
          p ts dynamic_feat observed prediction column x : value)
         (s : value * value * Z * Z),
    answered lib log 5 (Loaded largs (table, symbols))
    /\ answered lib log 7
         (Partitioned [table; target; covs; VStr i; split; windows] s)
    /\ answered lib log 19
         (Queried [VStr "BMW"; target; covs; table; pl] (ts, dynamic_feat, observed))
    /\ answered lib log 20
         (Called Predict
            [p; ts; dynamic_feat; VList [VFloat 0.10; VFloat 0.5; VFloat 0.90];
             VBool false] prediction)
    /\ answered lib log 22 (Called LastColumn [prediction] column)
    /\ answered lib log 23
         (Called PlotPredictedObserved [ts; observed; prediction; column] x)
    /\ VStr "BMW" ∈ mnemonics.

(** The estimator is built for the session of the run: with the image
    for "forecasting-deepar" that [get_image_uri] answered for the
    region of that session, the execution role and the session itself, on
    one "ml.c5.18xlarge" instance. *)
Definition estimator_of_session (lib : library) (log : list event) : Prop :=
  exists (role session region image job_name out est : value),
    answered lib log 0 (Called GetExecutionRole [] role)
    /\ answered lib log 1 (Called Session [] session)
    /\ answered lib log 2 (Called BotoRegionName [session] region)
    /\ answered lib log 3
         (Called GetImageUri [region; VStr "forecasting-deepar"; VStr "latest"] image)
    /\ answered lib log 12
         (Called EstimatorConstruct
            [session; image; role; VInt 1; VStr "ml.c5.18xlarge"; job_name; out] est).

(** The table is loaded for the five configured symbols and the four
    metrics, the three covariates first and the target last, and both
    sanity plots show that table with those symbols and metrics. *)
Definition loaded_table_plotted (lib : library) (i : string) (log : list event) : Prop :=
  exists (bucket key table symbols shape x y : value),
    let ms := VList [VStr "StartPrice"; VStr "MinPrice"; VStr "MaxPrice"; VStr "EndPrice"] in
    let mn := VList [VStr "CON"; VStr "DAI"; VStr "PAH3"; VStr "BMW"; VStr "VOW3"] in
    answered lib log 5 (Loaded [VStr i; bucket; key; mn; ms] (table, symbols))
    /\ answered lib log 6 (Called Shape [table] shape)
    /\ answered lib log 10 (Called MetricsPlot [mn; ms; table] x)
    /\ answered lib log 11 (Called TimeseriesPlot [mn; ms; table] y).

(** *** Kernels a run cannot tell apart *)

(** Every variable the cells assign. *)
Definition assigned_names : list string :=
  [ "interval"; "prediction_length"; "context_length"; "mnemonics"; "target_column";
    "covariate_columns"; "train_test_split"; "num_test_windows"; "hyperparameters";
    "role"; "session"; "region"; "image_name"; "s3_data_key"; "s3_bucket";
    "s3_output_path"; "metrics"; "stock_data_series"; "symbols"; "train_data";
    "test_data"; "train_start_dt"; "train_end_dt"; "end_training"; "train_channel";
    "test_channel"; "estimator"; "data_channels"; "estimator_job"; "predictor";
    "ts"; "dynamic_feat"; "observed"; "prediction"; "style"; "plot_interact" ].


(** Two kernels that issued the same calls, made the same reads and bind
    the variables of [D] to the same values. *)
Definition agree (D : list string) (st1 st2 : state) : Prop :=
  trace st1 = trace st2
  /\ reads st1 = reads st2
  /\ forall x, x ∈ D -> ns st1 !! x = ns st2 !! x.

(** Cell code that cannot tell such kernels apart: it gives the same
    result in both, and when it completes they agree on the variables of
    [D']. *)
Definition respects {A} (D D' : list string) (m : M A) : Prop :=
  forall st1 st2, agree D st1 st2 ->
    (m st1).1 = (m st2).1
    /\ agree (match (m st1).1 with inr _ => D' | inl _ => [] end) (m st1).2 (m st2).2.

(** * Properties of the notebook *)

(** ** The widget for [stock_id] *)

Lemma py_index_in_bounds {A} (l : list A) (i : Z) :
  (0 <= i < Z.of_nat (length l))%Z -> exists a, py_index l i = inr a.
Proof.
  intros Hi. unfold py_index.
  destruct (Z.ltb_spec i 0) as [Hneg | _]; [lia |].
  destruct (Z.leb_spec 0 i) as [_ | Hneg]; [| lia].
  destruct (Z.ltb_spec i (Z.of_nat (length l))) as [_ | Hge]; [| lia].
  simpl. destruct (l !! Z.to_nat i) as [a |] eqn:Hl; [eauto |].
  apply lookup_ge_None in Hl. lia.
Qed.

(** C10: every position of the [stock_id] slider lies between 0 and
    [len(mnemonics) - 1], so indexing the list of symbols with it is in
    bounds; for the five configured symbols the positions are 0 to 4. *)
Theorem stock_id_slider_in_bounds :
  slider_values (stock_id_slider (Z.of_nat (length mnemonics))) = [0; 1; 2; 3; 4]%Z
  /\ forall l : list value,
       Forall (fun v => (0 <= v <= Z.of_nat (length l) - 1)%Z
                        /\ exists m, py_index l v = inr m)
              (slider_values (stock_id_slider (Z.of_nat (length l)))).
Proof.
  split; [reflexivity |].
  intros l. unfold slider_values, stock_id_slider. simpl.
  apply Forall_fmap, Forall_forall. intros k Hk.
  apply elem_of_seqZ in Hk.
  rewrite Z.div_1_r in Hk. simpl.
  split; [lia | apply py_index_in_bounds; lia].
Qed.

(** ** The [forecast_date] expression *)

Lemma timedelta_ok_small (s : Z) :
  (0 <= s <= 1000000000000)%Z -> timedelta_ok s = true.
Proof.
  intros Hs. unfold timedelta_ok, seconds_per_day.
  assert (0 <= s / 86400)%Z by (apply Z.div_pos; lia).
  assert (s / 86400 <= 999999999)%Z by (apply Z.div_le_upper_bound; lia).
  apply andb_true_intro. split; apply Z.leb_le; lia.
Qed.

Lemma timedelta_seconds_small (s : Z) (st : state) :
  (0 <= s <= 1000000000000)%Z -> timedelta_seconds s st = (inr (VTimedelta s), st).
Proof.
  intros Hs. unfold timedelta_seconds. by rewrite timedelta_ok_small.
Qed.

(** What [forecast_date] answers in a kernel where [interval] is bound to
    the string [i]. *)
Lemma forecast_date_unfold (st : state) (i : string) (h : Z) :
  ns st !! "interval" = Some (VStr i) ->
  (0 <= h <= 1638)%Z ->
  (forecast_date h st).1 =
    if bool_decide (i = "D") then
      match ns st !! "end_training" with
      | Some (VTimestamp e) =>
          if timestamp_ok (e + h * 86400)
          then inr (VTimestamp (e + h * 86400))
          else inl (LibraryError "OutOfBoundsDatetime")
      | Some _ => inl TypeError
      | None => inl (NameError "end_training")
      end
    else if bool_decide (i = "H") then inr (VTimedelta (h * 3600))
    else if bool_decide (i = "W") then inr (VTimedelta (h * 604800))
    else if bool_decide (i = "M") then inr (VTimedelta (h * 30 * 86400))
    else inr (VInt 0).
Proof.
  destruct st as [n t r]. simpl. intros Hi Hh.
  unfold forecast_date, bind, load. simpl. rewrite Hi. simpl.
  destruct (String.eqb_spec i "D") as [-> | HD].
  { rewrite bool_decide_eq_true_2 by done. simpl.
    destruct (n !! "end_training") as [v |]; [| done].
    unfold timedelta_days, seconds_per_day.
    rewrite timedelta_seconds_small by lia. simpl.
    destruct v; try done. simpl. by destruct (timestamp_ok _). }
  rewrite bool_decide_eq_false_2 by done. simpl. rewrite Hi. simpl.
  destruct (String.eqb_spec i "H") as [-> | HH].
  { unfold timedelta_hours. by rewrite timedelta_seconds_small by lia. }
  rewrite bool_decide_eq_false_2 by done. simpl. rewrite Hi. simpl.
  destruct (String.eqb_spec i "W") as [-> | HW].
  { unfold timedelta_weeks, seconds_per_day.
    rewrite timedelta_seconds_small by lia. simpl. do 2 f_equal. lia. }
  rewrite bool_decide_eq_false_2 by done. simpl. rewrite Hi. simpl.
  destruct (String.eqb_spec i "M") as [-> | HM].
  { unfold timedelta_days, seconds_per_day.
    by rewrite timedelta_seconds_small by lia. }
  by rewrite bool_decide_eq_false_2 by done.
Qed.

(** C8: the [forecast_date] argument is [end_training] plus [h] days
    exactly when [interval] is "D"; for every other interval it is the
    bare offset ([h] hours for "H", [h] weeks for "W", [30 h] days for
    "M", the integer 0 otherwise), and [end_training] is not even
    consulted. *)
Theorem forecast_date_grouping (st : state) (i : string) (e h : Z) :
  ns st !! "interval" = Some (VStr i) ->
  ns st !! "end_training" = Some (VTimestamp e) ->
  (0 <= h <= 1638)%Z ->
  timestamp_ok (e + h * 86400) = true ->
  let r := (forecast_date h st).1 in
  (r = inr (VTimestamp (e + h * 86400)) <-> i = "D")
  /\ (i = "H" -> r = inr (VTimedelta (h * 3600)))
  /\ (i = "W" -> r = inr (VTimedelta (h * 604800)))
  /\ (i = "M" -> r = inr (VTimedelta (h * 30 * 86400)))
  /\ (i <> "D" -> i <> "H" -> i <> "W" -> i <> "M" -> r = inr (VInt 0))
  /\ (i <> "D" ->
      (forecast_date h (State (delete "end_training" (ns st)) (trace st) (reads st))).1 = r).
Proof.
  intros Hi He Hh Hok r. subst r.
  rewrite (forecast_date_unfold st i h Hi Hh), He, Hok.
  repeat split.
  - repeat case_bool_decide; congruence.
  - intros ->. by rewrite bool_decide_eq_true_2.
  - intros ->. done.
  - intros ->. done.
  - intros ->. done.
  - intros. by rewrite !bool_decide_eq_false_2.
  - intros HD. rewrite (forecast_date_unfold _ i h) by (simpl; by rewrite ?lookup_delete_ne).
    by rewrite bool_decide_eq_false_2.
Qed.

Lemma forecast_date_grouping_witness :
  (0 <= 7 <= 1638)%Z
  /\ ((forecast_date 7 daily_kernel).1 = inr (VTimestamp (1514764800 + 7 * 86400))
        <-> "D" = "D").
Proof.
  split; [lia |].
  apply (forecast_date_grouping daily_kernel "D" 1514764800 7);
    [reflexivity | reflexivity | lia | reflexivity].
Defined.

(** ** The two length parameters stay equal *)

Lemma pure_preserves {A} k (m : M A) : pure m -> preserves k m.
Proof. intros Hm st Hst. by rewrite Hm. Qed.

Lemma preserves_ret {A} k (a : A) : preserves k (ret a).
Proof. by intros st. Qed.

Lemma preserves_raise {A} k e : preserves k (@raise A e).
Proof. by intros st. Qed.

Lemma preserves_bind {A B} k (m : M A) (f : A -> M B) :
  preserves k m -> (forall a, preserves k (f a)) -> preserves k (bind m f).
Proof.
  intros Hm Hf st Hst. unfold bind.
  specialize (Hm st Hst). destruct (m st) as [[e | a] st']; [done |].
  by apply Hf.
Qed.

Lemma preserves_load k x : preserves k (load x).
Proof.
  intros [n t r] (Hp & Hc & Hr). unfold load. simpl in *.
  destruct (n !! x) as [v |] eqn:Hx; simpl; [| done].
  repeat split; [done | done |].
  intros y w Hin Hy. apply elem_of_app in Hin as [Hin | Hin]; [by eapply Hr |].
  apply list_elem_of_singleton in Hin. simplify_eq.
  destruct Hy as [-> | ->]; congruence.
Qed.

Lemma preserves_store k x v :
  x <> "prediction_length" -> x <> "context_length" -> preserves k (store x v).
Proof.
  intros H1 H2 [n t r] (Hp & Hc & Hr). unfold params_inv, store. simpl in *.
  by rewrite !lookup_insert_ne.
Qed.

Lemma preserves_lift_lib {A} k (r : string + A) st :
  params_inv k st -> params_inv k (lift_lib r st).2.
Proof. by destruct r. Qed.

Lemma preserves_call k lib c args : preserves k (call lib c args).
Proof. intros st Hst. unfold call. by apply preserves_lift_lib. Qed.

Lemma preserves_call_load k lib args : preserves k (call_load lib args).
Proof. intros st Hst. unfold call_load. by apply preserves_lift_lib. Qed.

Lemma preserves_call_split k lib args : preserves k (call_split lib args).
Proof. intros st Hst. unfold call_split. by apply preserves_lift_lib. Qed.

Lemma preserves_call_query k lib args : preserves k (call_query lib args).
Proof. intros st Hst. unfold call_query. by apply preserves_lift_lib. Qed.

Lemma pure_py_assert c : pure (py_assert c).
Proof. by destruct c. Qed.

Lemma pure_py_len v : pure (py_len v).
Proof. by destruct v. Qed.

Lemma pure_py_mul a b : pure (py_mul a b).
Proof. by destruct a, b. Qed.

Lemma pure_py_extend a b : pure (py_extend a b).
Proof. by destruct a, b. Qed.

Lemma pure_py_append a b : pure (py_append a b).
Proof. by destruct a. Qed.

Lemma pure_as_int v : pure (as_int v).
Proof. by destruct v. Qed.

Lemma pure_timedelta_seconds s : pure (timedelta_seconds s).
Proof. intros st. unfold timedelta_seconds. by destruct (timedelta_ok s). Qed.

Lemma pure_py_add a b : pure (py_add a b).
Proof.
  intros st. destruct a, b; try done. simpl. by destruct (timestamp_ok _).
Qed.

Lemma pure_reparse_timestamp v : pure (reparse_timestamp v).
Proof. by destruct v. Qed.

Lemma pure_mk_slider s : pure (mk_slider s).
Proof. intros st. unfold mk_slider. by destruct (_ <? _)%Z. Qed.

Create HintDb preserves_db.

#[local] Hint Resolve preserves_ret preserves_raise preserves_load preserves_call
  preserves_call_load preserves_call_split preserves_call_query : preserves_db.
#[local] Hint Resolve pure_py_assert pure_py_len pure_py_mul pure_py_extend
  pure_py_append pure_as_int pure_timedelta_seconds pure_py_add
  pure_reparse_timestamp pure_mk_slider : preserves_db.

(** Walks through a cell: binds are split, branches are taken apart,
    assignments are checked not to touch the two parameters. *)
Ltac preserves_step :=
  lazymatch goal with
  | |- preserves _ (bind _ _) => apply preserves_bind; [| intros ?]
  | |- preserves _ (store _ _) => apply preserves_store; discriminate
  | |- preserves _ (if ?c then _ else _) => destruct c
  | |- preserves _ (let '(_, _) := ?p in _) => destruct p
  | |- preserves _ _ =>
      first [ solve [auto with preserves_db]
            | apply pure_preserves; solve [auto with preserves_db] ]
  end.

Ltac preserves_cell := repeat preserves_step.

Lemma preserves_forecast_date k h : preserves k (forecast_date h).
Proof.
  unfold forecast_date, timedelta_days, timedelta_hours, timedelta_weeks.
  preserves_cell.
Qed.

Lemma preserves_plot_interact k lib c : preserves k (plot_interact lib c).
Proof.
  unfold plot_interact. preserves_cell. apply preserves_forecast_date.
Qed.

Lemma preserves_button_presses k lib clicks : preserves k (button_presses lib clicks).
Proof.
  induction clicks as [| c clicks IH]; simpl.
  - apply preserves_ret.
  - apply preserves_bind; [apply preserves_plot_interact | by intros _].
Qed.

Lemma preserves_later_cells k lib clicks :
  Forall (preserves k)
    [ cell_session lib; cell_load lib; cell_split lib; cell_metrics_plot lib;
      cell_timeseries_plot lib; cell_train lib; cell_deploy lib; cell_attach lib;
      cell_predict lib; cell_plot_prediction lib; cell_interact lib clicks;
      cell_delete lib ].
Proof.
  repeat lazymatch goal with
         | |- Forall _ (_ :: _) => apply Forall_cons_2
         | |- Forall _ [] => apply Forall_nil_2
         end.
  - unfold cell_session. preserves_cell.
  - unfold cell_load. preserves_cell.
  - unfold cell_split. preserves_cell.
  - unfold cell_metrics_plot. preserves_cell.
  - unfold cell_timeseries_plot. preserves_cell.
  - unfold cell_train. preserves_cell.
  - unfold cell_deploy. preserves_cell.
  - unfold cell_attach. preserves_cell.
  - unfold cell_predict. preserves_cell.
  - unfold cell_plot_prediction. preserves_cell.
  - unfold cell_interact, interact_widgets. preserves_cell.
    apply preserves_button_presses.
  - unfold cell_delete. preserves_cell.
Qed.

Lemma preserves_run_cells k cells :
  Forall (preserves k) cells -> preserves k (run_cells cells).
Proof.
  induction 1 as [| c cells Hc _ IH]; simpl.
  - apply preserves_ret.
  - apply preserves_bind; [done | by intros _].
Qed.

(** What the configuration cell does on a fresh kernel. *)
Lemma cell_parameters_D :
  exists st, cell_parameters "D" fresh_kernel = (inr tt, st) /\ params_inv 91 st.
Proof.
  eexists. split; [vm_compute; reflexivity |].
  repeat split; try reflexivity.
  intros x v Hin Hx. simpl in Hin.
  repeat (apply elem_of_cons in Hin as [Hin | Hin]; [destruct Hx; by simplify_eq |]).
  by apply elem_of_nil in Hin.
Qed.

Lemma cell_parameters_H :
  exists st, cell_parameters "H" fresh_kernel = (inr tt, st) /\ params_inv 2184 st.
Proof.
  eexists. split; [vm_compute; reflexivity |].
  repeat split; try reflexivity.
  intros x v Hin Hx. simpl in Hin.
  repeat (apply elem_of_cons in Hin as [Hin | Hin]; [destruct Hx; by simplify_eq |]).
  by apply elem_of_nil in Hin.
Qed.

(** Stepping through cell code on an explicit kernel. *)
Lemma run_store {B} x v (k : unit -> M B) n t r :
  bind (store x v) k (State n t r) = k tt (State (<[x := v]> n) t r).
Proof. reflexivity. Qed.

Lemma run_load {B} x v (k : value -> M B) n t r :
  n !! x = Some v ->
  bind (load x) k (State n t r) = k v (State n t (r ++ [(x, v)])).
Proof. intros Hx. unfold bind, load. simpl. by rewrite Hx. Qed.


Lemma run_bind {A B C} (m : M A) (f : A -> M B) (k : B -> M C) st :
  bind (bind m f) k st = bind m (fun a => bind (f a) k) st.
Proof. unfold bind. by destruct (m st) as [[e | a] st']. Qed.

Lemma cell_parameters_other (i : string) :
  i <> "D" -> i <> "H" -> (cell_parameters i fresh_kernel).1 = inl AssertionError.
Proof.
  intros HD HH. unfold cell_parameters, fresh_kernel.
  rewrite run_store, run_bind.
  rewrite (run_load _ (VStr i)) by apply lookup_insert_eq.
  simpl eq_str.
  destruct (String.eqb_spec i "D") as [| _]; [done |].
  rewrite run_bind, (run_load _ (VStr i)) by apply lookup_insert_eq.
  simpl eq_str.
  destruct (String.eqb_spec i "H") as [| _]; [done |].
  reflexivity.
Qed.

(** C9: once the configuration cell has run without error, the prediction
    length and the context length are bound to the same number (91 for
    "D", 2184 for "H"), they stay so whichever later cells run, and every
    later read of either returns that number. *)
Theorem lengths_equal_after_configuration
    (lib : library) (i : string) (clicks : list click) (n : nat)
    (r : result unit) (st : state) :
  (cell_parameters i fresh_kernel).1 = inr tt ->
  1 <= n ->
  run_cells (take n (notebook lib i clicks)) fresh_kernel = (r, st) ->
  exists k : Z,
    (i = "D" /\ k = 91%Z \/ i = "H" /\ k = 2184%Z)
    /\ ns st !! "prediction_length" = Some (VInt k)
    /\ ns st !! "context_length" = Some (VInt k)
    /\ forall x v, (x, v) ∈ reads st ->
         x = "prediction_length" \/ x = "context_length" -> v = VInt k.
Proof.
  intros Hcfg Hn Hrun.
  destruct n as [| n]; [lia |]. unfold notebook in Hrun. simpl in Hrun.
  assert (exists k st1, (i = "D" /\ k = 91%Z \/ i = "H" /\ k = 2184%Z)
            /\ cell_parameters i fresh_kernel = (inr tt, st1) /\ params_inv k st1)
    as (k & st1 & Hk & Hst1 & Hinv).
  { destruct (decide (i = "D")) as [-> | HD].
    { destruct cell_parameters_D as (st1 & ? & ?). exists 91%Z, st1. auto. }
    destruct (decide (i = "H")) as [-> | HH].
    { destruct cell_parameters_H as (st1 & ? & ?). exists 2184%Z, st1. auto. }
    rewrite cell_parameters_other in Hcfg by done. discriminate. }
  exists k. split; [done |].
  unfold bind in Hrun. rewrite Hst1 in Hrun.
  change (foldr _ _ ?l) with (run_cells l) in Hrun.
  assert (params_inv k (run_cells (take n
            [ cell_session lib; cell_load lib; cell_split lib; cell_metrics_plot lib;
              cell_timeseries_plot lib; cell_train lib; cell_deploy lib;
              cell_attach lib; cell_predict lib; cell_plot_prediction lib;
              cell_interact lib clicks; cell_delete lib ]) st1).2) as Hend.
  { apply preserves_run_cells; [| done].
    apply Forall_take, preserves_later_cells. }
  rewrite Hrun in Hend. exact Hend.
Qed.

Lemma lengths_equal_after_configuration_witness :
  1 <= 13 /\
  exists k : Z,
    ("D" = "D" /\ k = 91%Z \/ "D" = "H" /\ k = 2184%Z)
    /\ ns (run_notebook happy_library "D" two_clicks).2 !! "prediction_length"
       = Some (VInt k)
    /\ ns (run_notebook happy_library "D" two_clicks).2 !! "context_length"
       = Some (VInt k)
    /\ forall x v, (x, v) ∈ reads (run_notebook happy_library "D" two_clicks).2 ->
         x = "prediction_length" \/ x = "context_length" -> v = VInt k.
Proof.
  split; [lia |].
  apply (lengths_equal_after_configuration happy_library "D" two_clicks 13 (inr tt));
    [vm_compute; reflexivity | lia | vm_compute; reflexivity].
Defined.

(** ** What a run of the whole notebook looks like *)

Lemma api_call_of_code_code c : api_call_of_code (api_call_code c) = Some c.
Proof. by destruct c. Qed.

Global Instance api_call_eq_dec : EqDecision api_call.
Proof.
  intros x y. destruct (decide (api_call_code x = api_call_code y)) as [H | H].
  - left. apply (f_equal api_call_of_code) in H.
    rewrite !api_call_of_code_code in H. congruence.
  - right. congruence.
Defined.

Lemma run_call {B} lib c args (k : value -> M B) n t r :
  bind (call lib c args) k (State n t r) =
    match lib_call lib (length t) c args with
    | inl msg => (inl (LibraryError msg), State n (t ++ [(c, args)]) r)
    | inr v => k v (State n (t ++ [(c, args)]) r)
    end.
Proof. unfold bind, call, lift_lib, log. simpl. by destruct (lib_call _ _ _ _). Qed.

Lemma timedelta_seconds_outcome s st :
  exists res, timedelta_seconds s st = (res, st)
    /\ match res with inl e => is_library_error e = true | inr v => exists d, v = VTimedelta d end.
Proof.
  unfold timedelta_seconds. destruct (timedelta_ok s); eexists; (split; [reflexivity |]);
    simpl; eauto.
Qed.

Lemma forecast_date_outcome h n t r i e :
  n !! "interval" = Some (VStr i) ->
  n !! "end_training" = Some (VTimestamp e) ->
  exists res r', forecast_date h (State n t r) = (res, State n t r')
    /\ match res with inl e => is_library_error e = true | inr _ => True end.
Proof.
  intros Hi He. unfold forecast_date.
  rewrite (run_load _ _ _ _ _ _ Hi). cbv beta. unfold eq_str.
  destruct (String.eqb i "D").
  { rewrite (run_load _ _ _ _ _ _ He). unfold bind.
    destruct (timedelta_seconds_outcome (h * seconds_per_day) (State n t (r ++ [("interval", VStr i)] ++ [("end_training", VTimestamp e)])))
      as (res & Hres & Hok).
    rewrite app_assoc in Hres. unfold timedelta_days. rewrite Hres.
    destruct res as [err | v]; [by eauto |].
    destruct Hok as [d ->]. simpl.
    destruct (timestamp_ok (e + d)); do 2 eexists; (split; [reflexivity | done]). }
  rewrite (run_load _ _ _ _ _ _ Hi). cbv beta. unfold eq_str.
  destruct (String.eqb i "H").
  { edestruct timedelta_seconds_outcome as (res & Hres & Hok).
    unfold timedelta_hours. rewrite Hres. do 2 eexists. split; [done |].
    by destruct res. }
  rewrite (run_load _ _ _ _ _ _ Hi). cbv beta. unfold eq_str.
  destruct (String.eqb i "W").
  { edestruct timedelta_seconds_outcome as (res & Hres & Hok).
    unfold timedelta_weeks. rewrite Hres. do 2 eexists. split; [done |].
    by destruct res. }
  rewrite (run_load _ _ _ _ _ _ Hi). cbv beta. unfold eq_str.
  destruct (String.eqb i "M").
  { edestruct timedelta_seconds_outcome as (res & Hres & Hok).
    unfold timedelta_days. rewrite Hres. do 2 eexists. split; [done |].
    by destruct res. }
  do 2 eexists. by split.
Qed.



Lemma run_call_load {B} lib args (k : value * value -> M B) n t r :
  bind (call_load lib args) k (State n t r) =
    match lib_load lib (length t) args with
    | inl msg => (inl (LibraryError msg), State n (t ++ [(LoadResampledFromS3, args)]) r)
    | inr v => k v (State n (t ++ [(LoadResampledFromS3, args)]) r)
    end.
Proof. unfold bind, call_load, lift_lib, log. simpl. by destruct (lib_load _ _ _). Qed.

Lemma run_call_split {B} lib args (k : value * value * Z * Z -> M B) n t r :
  bind (call_split lib args) k (State n t r) =
    match lib_split lib (length t) args with
    | inl msg => (inl (LibraryError msg), State n (t ++ [(GenerateTrainTestSet, args)]) r)
    | inr v => k v (State n (t ++ [(GenerateTrainTestSet, args)]) r)
    end.
Proof. unfold bind, call_split, lift_lib, log. simpl. by destruct (lib_split _ _ _). Qed.

Lemma run_call_query {B} lib args (k : value * value * value -> M B) n t r :
  bind (call_query lib args) k (State n t r) =
    match lib_query lib (length t) args with
    | inl msg => (inl (LibraryError msg), State n (t ++ [(QueryForStock, args)]) r)
    | inr v => k v (State n (t ++ [(QueryForStock, args)]) r)
    end.
Proof. unfold bind, call_query, lift_lib, log. simpl. by destruct (lib_query _ _ _). Qed.


Ltac solve_lookup :=
  repeat (rewrite lookup_insert_ne by discriminate); apply lookup_insert_eq.






Lemma run_stops_at_assertion lib i clicks :
  i <> "D" -> i <> "H" ->
  (run_notebook lib i clicks).1 = inl AssertionError
  /\ trace (run_notebook lib i clicks).2 = [].
Proof.
  intros HD HH.
  unfold run_notebook, notebook, run_cells, fresh_kernel, cell_parameters. cbn [foldr].
  rewrite run_bind, run_store, run_bind, run_bind.
  rewrite (run_load _ (VStr i)) by apply lookup_insert_eq.
  cbv beta. unfold eq_str.
  destruct (String.eqb_spec i "D") as [| _]; [done |].
  rewrite run_bind, (run_load _ (VStr i)) by apply lookup_insert_eq.
  cbv beta.
  destruct (String.eqb_spec i "H") as [| _]; [done |].
  done.
Qed.


(** ** The order of the high-level calls *)





(** * Further properties of the notebook *)

(** ** Stepping through cells in a hypothesis *)

(** A lookup in a chain of assignments, by the shape of the chain. *)
Ltac solve_lookup_in_kernel :=
  lazymatch goal with
  | |- insert ?x ?v ?m !! ?x = Some _ => exact (lookup_insert_eq m x v)
  | |- insert ?y ?v ?m !! ?x = Some _ =>
      refine (eq_trans (lookup_insert_ne m y x v _) _);
      [discriminate | solve_lookup_in_kernel]
  | |- _ => eassumption
  end.

(** The value a variable is bound to: in the chain, or by a hypothesis
    about the namespace the chain starts from. *)
Ltac bound_in_kernel n x :=
  lazymatch n with
  | insert x ?v _ => v
  | insert _ _ ?n' => bound_in_kernel n' x
  | ?n0 => lazymatch goal with Hx : n0 !! x = Some ?v |- _ => v end
  end.

(** One step of cell code in [H : m (State n t r) = out].  A library call
    is split into its succeeding case and its failing case, which [failed]
    is to deal with. *)
Ltac exec_with H failed :=
  lazymatch type of H with
  | bind (bind ?m ?f) ?k ?st = _ => rewrite (run_bind m f k st) in H
  | bind (store ?x ?v) ?k (State ?n ?t ?r) = _ =>
      rewrite (run_store x v k n t r) in H; cbv beta in H
  | bind (load ?x) ?k (State ?n ?t ?r) = _ =>
      let v := bound_in_kernel n x in
      rewrite (run_load x v k n t r) in H by solve_lookup_in_kernel; cbv beta in H
  | bind (ret ?a) ?k ?st = _ => change (bind (ret a) k st) with (k a st) in H; cbv beta in H
  | bind (call ?l ?c ?a) ?k (State ?n ?t ?r) = _ =>
      rewrite (run_call l c a k n t r) in H; cbn [app length] in H;
      lazymatch type of H with
      | match ?x with inl _ => _ | inr _ => _ end = _ =>
          destruct x as [?msg | ?v] eqn:?; [failed | cbv beta in H]
      end
  | bind (call_load ?l ?a) ?k (State ?n ?t ?r) = _ =>
      rewrite (run_call_load l a k n t r) in H; cbn [app length] in H;
      lazymatch type of H with
      | match ?x with inl _ => _ | inr _ => _ end = _ =>
          destruct x as [?msg | [? ?]] eqn:?;
          [failed | cbv beta iota in H; cbn [fst snd] in H]
      end
  | bind (call_split ?l ?a) ?k (State ?n ?t ?r) = _ =>
      rewrite (run_call_split l a k n t r) in H; cbn [app length] in H;
      lazymatch type of H with
      | match ?x with inl _ => _ | inr _ => _ end = _ =>
          destruct x as [?msg | [[[? ?] ?] ?]] eqn:?;
          [failed | cbv beta iota in H]
      end
  | bind (call_query ?l ?a) ?k (State ?n ?t ?r) = _ =>
      rewrite (run_call_query l a k n t r) in H; cbn [app length] in H;
      lazymatch type of H with
      | match ?x with inl _ => _ | inr _ => _ end = _ =>
          destruct x as [?msg | [[? ?] ?]] eqn:?;
          [failed | cbv beta iota in H]
      end
  | bind (if ?c then _ else _) _ _ = _ =>
      let b := eval vm_compute in c in
      change c with b in H; cbv iota in H
  | (if ?c then _ else _) _ = _ =>
      let b := eval vm_compute in c in
      change c with b in H; cbv iota in H
  | bind (py_assert ?c) _ _ = _ =>
      let b := eval vm_compute in c in
      change c with b in H; cbn [py_assert] in H
  | bind (mk_slider _) _ _ = _ => unfold mk_slider at 1 in H
  | bind _ _ _ = _ =>
      progress cbn [py_len py_extend py_append py_mul as_int reparse_timestamp] in H
  end.

(** In a run that is known to complete, a failing call is absurd. *)
Ltac exec_in H := exec_with H ltac:(discriminate H).

(** In any run, a failing call ends the cell and is looked at afterwards. *)
Ltac exec_any H := exec_with H ltac:(idtac).

Lemma run_load_missing {B} x (k : value -> M B) n t r :
  n !! x = None -> bind (load x) k (State n t r) = (inl (NameError x), State n t r).
Proof. intros Hx. unfold bind, load. simpl. by rewrite Hx. Qed.

Lemma mk_slider_ok {B} (s : int_slider) (k : int_slider -> M B) st :
  (s_min s <= s_max s)%Z -> bind (mk_slider s) k st = k s st.
Proof.
  intros Hs. unfold bind, mk_slider.
  destruct (Z.ltb_spec (s_max s) (s_min s)) as [? | _]; [lia | done].
Qed.

Lemma mk_slider_empty {B} (s : int_slider) (k : int_slider -> M B) st :
  (s_max s < s_min s)%Z -> bind (mk_slider s) k st = (inl (LibraryError "TraitError"), st).
Proof.
  intros Hs. unfold bind, mk_slider.
  destruct (Z.ltb_spec (s_max s) (s_min s)) as [_ | ?]; [done | lia].
Qed.

(** ** The configuration cell in a used kernel *)

Lemma valid_or_not (i : string) :
  (exists k, length_for i k) \/ (i <> "D" /\ i <> "H").
Proof.
  destruct (decide (i = "D")) as [-> | HD]; [left; exists 91%Z; by left |].
  destruct (decide (i = "H")) as [-> | HH]; [left; exists 2184%Z; by right |].
  by right.
Qed.

(** For a valid interval the cell completes in any kernel, and what it
    reads does not depend on the kernel. *)
Lemma cell_parameters_valid (i : string) (k : Z) :
  length_for i k ->
  exists r', forall n t r,
    cell_parameters i (State n t r) = (inr tt, State (configured i k n) t (r ++ r')).
Proof.
  intros [[-> ->] | [-> ->]]; eexists; intros n t r.
  - destruct (cell_parameters "D" (State n t r)) as [res st'] eqn:H.
    unfold cell_parameters in H. repeat exec_in H.
    rewrite <- H. unfold store, configured. cbn [ns trace reads].
    rewrite <- !app_assoc. reflexivity.
  - destruct (cell_parameters "H" (State n t r)) as [res st'] eqn:H.
    unfold cell_parameters in H. repeat exec_in H.
    rewrite <- H. unfold store, configured. cbn [ns trace reads].
    rewrite <- !app_assoc. reflexivity.
Qed.

Lemma cell_parameters_invalid (i : string) n t r :
  i <> "D" -> i <> "H" ->
  cell_parameters i (State n t r)
  = (inl AssertionError,
     State (<["interval" := VStr i]> n) t
       (r ++ [("interval", VStr i); ("interval", VStr i)])).
Proof.
  intros HD HH. unfold cell_parameters.
  rewrite run_store, run_bind.
  rewrite (run_load _ (VStr i)) by apply lookup_insert_eq.
  cbv beta. unfold eq_str.
  destruct (String.eqb_spec i "D") as [| _]; [done |].
  rewrite run_bind, (run_load _ (VStr i)) by apply lookup_insert_eq.
  cbv beta.
  destruct (String.eqb_spec i "H") as [| _]; [done |].
  rewrite <- app_assoc. reflexivity.
Qed.

Ltac name_assigned :=
  repeat first [apply list_elem_of_here | apply list_elem_of_further].

Lemma configured_lookup i k n1 n2 x :
  x ∈ configuration_names -> configured i k n1 !! x = configured i k n2 !! x.
Proof.
  intros Hx. unfold configuration_names in Hx.
  repeat (apply elem_of_cons in Hx as [-> | Hx];
          [unfold configured;
           etrans; [solve_lookup | symmetry; solve_lookup] |]).
  by apply elem_of_nil in Hx.
Qed.

Lemma not_configuration_name_lookup i k n x :
  x ∉ configuration_names -> configured i k n !! x = n !! x.
Proof.
  intros Hx. unfold configured.
  repeat (rewrite lookup_insert_ne;
          [| intros <-; apply Hx; unfold configuration_names; name_assigned]).
  done.
Qed.

(** X1: the configuration cell assigns [interval] before it checks it.
    Run in a kernel that already holds values, for "D" or "H" it completes
    and rebinds its nine variables to the values it gives them in a fresh
    kernel; for any other interval it fails its assertion with the invalid
    interval already bound, and every other variable, the lengths and
    hyperparameters of an earlier configuration among them, is left as it
    was.  In neither case is the library called. *)
Theorem configuration_in_used_kernel (i : string) (st : state) :
  let out := cell_parameters i st in
  trace out.2 = trace st
  /\ (forall x, x ∉ configuration_names -> ns out.2 !! x = ns st !! x)
  /\ (i = "D" \/ i = "H" ->
      out.1 = inr tt
      /\ forall x, x ∈ configuration_names ->
           ns out.2 !! x = ns (cell_parameters i fresh_kernel).2 !! x)
  /\ (~ (i = "D" \/ i = "H") ->
      out.1 = inl AssertionError
      /\ ns out.2 !! "interval" = Some (VStr i)
      /\ forall x, x <> "interval" -> ns out.2 !! x = ns st !! x).
Proof.
  destruct st as [n t r]. cbn zeta.
  destruct (valid_or_not i) as [[k Hk] | [HD HH]].
  - destruct (cell_parameters_valid i k Hk) as [r' Hrun].
    unfold fresh_kernel. rewrite !Hrun. cbn [fst snd ns trace].
    split; [done |]. split; [by apply not_configuration_name_lookup |].
    split.
    + intros _. split; [done |]. intros x Hx. by apply configured_lookup.
    + intros Hn. destruct Hn. destruct Hk as [[-> _] | [-> _]]; auto.
  - rewrite cell_parameters_invalid by done. cbn [fst snd ns trace].
    split; [done |]. split.
    { intros x Hx. apply lookup_insert_ne. intros <-. apply Hx.
      unfold configuration_names. name_assigned. }
    split; [intros [? | ?]; done |].
    intros _. split; [done |]. split; [apply lookup_insert_eq |].
    intros x Hx. by apply lookup_insert_ne.
Qed.

(** ** The cell that loads the table *)

(** What the load cell does up to and including its call of
    [load_resampled_from_s3], and what it leaves bound. *)
Lemma cell_load_outcome lib n t r (cs : list value) (tc i b k mn : value) :
  n !! "covariate_columns" = Some (VList cs) ->
  n !! "target_column" = Some tc ->
  n !! "interval" = Some i ->
  n !! "s3_bucket" = Some b ->
  n !! "s3_data_key" = Some k ->
  n !! "mnemonics" = Some mn ->
  exists res n' t' r',
    cell_load lib (State n t r) = (res, State n' t' r')
    /\ (t ++ [(LoadResampledFromS3, [i; b; k; mn; VList (cs ++ [tc])])])%list `prefix_of` t'
    /\ n' !! "metrics" = Some (VList (cs ++ [tc]))
    /\ forall x, x <> "metrics" -> x <> "stock_data_series" -> x <> "symbols" ->
         n' !! x = n !! x.
Proof.
  intros Hcs Htc Hi Hb Hk Hmn.
  destruct (cell_load lib (State n t r)) as [res st'] eqn:H.
  unfold cell_load in H.
  repeat exec_any H;
    rewrite <- H; do 4 eexists; (split; [reflexivity |]);
    (split; [first [reflexivity | apply prefix_app_r; reflexivity
                   | rewrite <- app_assoc; apply prefix_app_r, prefix_app_r; reflexivity] |]);
    (split; [solve_lookup |]);
    intros x H1 H2 H3; by rewrite !lookup_insert_ne.
Qed.

(** X2: the load cell passes the covariate columns followed by the
    target column as [metrics], whatever [metrics] held before, and
    leaves [covariate_columns] as it was ([extend] copies): running the
    cell a second time passes the same list again, not a longer one. *)
Theorem cell_load_rebuilds_metrics (lib : library) (st : state)
    (cs : list value) (tc i b k mn : value) :
  ns st !! "covariate_columns" = Some (VList cs) ->
  ns st !! "target_column" = Some tc ->
  ns st !! "interval" = Some i ->
  ns st !! "s3_bucket" = Some b ->
  ns st !! "s3_data_key" = Some k ->
  ns st !! "mnemonics" = Some mn ->
  let out := cell_load lib st in
  let again := cell_load lib out.2 in
  trace out.2 !! length (trace st)
    = Some (LoadResampledFromS3, [i; b; k; mn; VList (cs ++ [tc])])
  /\ ns out.2 !! "metrics" = Some (VList (cs ++ [tc]))
  /\ ns out.2 !! "covariate_columns" = Some (VList cs)
  /\ trace again.2 !! length (trace out.2)
      = Some (LoadResampledFromS3, [i; b; k; mn; VList (cs ++ [tc])])
  /\ ns again.2 !! "metrics" = Some (VList (cs ++ [tc])).
Proof.
  destruct st as [n t r]. cbn [ns trace]. intros Hcs Htc Hi Hb Hk Hmn.
  destruct (cell_load_outcome lib n t r cs tc i b k mn)
    as (res & n' & t' & r' & Hrun & Ht' & Hm & Hn'); try done.
  cbn zeta. rewrite Hrun. cbn [fst snd ns trace].
  destruct (cell_load_outcome lib n' t' r' cs tc i b k mn)
    as (res2 & n2 & t2 & r2 & Hrun2 & Ht2 & Hm2 & Hn2);
    try (rewrite Hn' by discriminate; done).
  rewrite Hrun2. cbn [fst snd ns trace].
  repeat split; try done.
  - destruct Ht' as [rest ->]. rewrite <- app_assoc.
    by rewrite lookup_app_r, Nat.sub_diag.
  - by rewrite Hn'.
  - destruct Ht2 as [rest ->]. rewrite <- app_assoc.
    by rewrite lookup_app_r, Nat.sub_diag.
Qed.

Lemma cell_load_rebuilds_metrics_witness :
  ns session_kernel !! "covariate_columns" = Some covariate_columns
  /\ trace (cell_load happy_library session_kernel).2 !! length (trace session_kernel)
     = Some (LoadResampledFromS3,
             [VStr "D"; VObject 4; s3_data_key; VList mnemonics; metrics])
  /\ ns (cell_load happy_library session_kernel).2 !! "metrics" = Some metrics
  /\ ns (cell_load happy_library session_kernel).2 !! "covariate_columns"
     = Some covariate_columns
  /\ trace (cell_load happy_library (cell_load happy_library session_kernel).2).2
       !! length (trace (cell_load happy_library session_kernel).2)
     = Some (LoadResampledFromS3,
             [VStr "D"; VObject 4; s3_data_key; VList mnemonics; metrics])
  /\ ns (cell_load happy_library (cell_load happy_library session_kernel).2).2 !! "metrics"
     = Some metrics.
Proof.
  split; [vm_compute; reflexivity |].
  apply (cell_load_rebuilds_metrics happy_library session_kernel
           [VStr "StartPrice"; VStr "MinPrice"; VStr "MaxPrice"] (VStr "EndPrice")
           (VStr "D") (VObject 4) s3_data_key (VList mnemonics));
    vm_compute; reflexivity.
Defined.

(** ** The widgets of the interactive plot *)

Lemma ilog10_fuel_bound (fuel : nat) (n : Z) :
  (2 <= n)%Z -> (0 <= ilog10_fuel fuel n /\ 4 * (ilog10_fuel fuel n + 1) <= 3 * n)%Z.
Proof.
  revert n. induction fuel as [| fuel IH]; intros n Hn; simpl; [lia |].
  destruct (Z.ltb_spec n 10) as [Hlt | Hge]; [lia |].
  assert (n / 10 * 10 <= n)%Z as Hdiv
    by (pose proof (Z.mod_pos_bound n 10); pose proof (Z.div_mod n 10); lia).
  assert (1 <= n / 10)%Z as Hpos by (apply Z.div_le_lower_bound; lia).
  destruct (decide (n / 10 = 1)%Z) as [-> | Hne].
  - destruct fuel; simpl; lia.
  - destruct (IH (n / 10)%Z) as [H0 H1]; lia.
Qed.

(** The default horizon, one more than the decimal logarithm of the
    context length, does not exceed three quarters of the context length. *)
Lemma horizon_default_in_range (c : Z) :
  (2 <= c)%Z -> (0 <= ilog10 c + 1 <= int_three_quarters c)%Z.
Proof.
  intros Hc. unfold ilog10, int_three_quarters.
  destruct (ilog10_fuel_bound (Z.to_nat (Z.log2 c) + 1) c Hc) as [H0 H1].
  rewrite Z.quot_div_nonneg by lia.
  split; [lia |]. apply Z.div_le_lower_bound; lia.
Qed.

(** The positions of a slider with a positive step are the values between
    its bounds that lie a whole number of steps above the minimum. *)
Lemma elem_of_slider_values (s : int_slider) (v : Z) :
  (0 < s_step s)%Z ->
  v ∈ slider_values s <->
  (s_min s <= v <= s_max s)%Z /\ ((v - s_min s) mod s_step s = 0)%Z.
Proof.
  intros Hstep. unfold slider_values.
  destruct (Z.ltb_spec 0 (s_step s)) as [_ | ?]; [| lia].
  rewrite list_elem_of_fmap. setoid_rewrite elem_of_seqZ.
  split.
  - intros (k & -> & Hk).
    assert (k <= (s_max s - s_min s) / s_step s)%Z as Hle by lia.
    assert (k * s_step s <= s_max s - s_min s)%Z.
    { etrans; [apply Z.mul_le_mono_nonneg_r; [lia | exact Hle] |].
      rewrite Z.mul_comm. apply Z.mul_div_le. lia. }
    split; [nia |].
    replace (s_min s + k * s_step s - s_min s)%Z with (k * s_step s)%Z by lia.
    apply Z.mod_mul. lia.
  - intros [[Hlo Hhi] Hmod].
    exists ((v - s_min s) / s_step s)%Z.
    pose proof (Z.div_mod (v - s_min s) (s_step s) ltac:(lia)) as Hdm.
    rewrite Hmod in Hdm.
    split; [lia |].
    split; [apply Z.div_pos; lia |].
    assert ((v - s_min s) / s_step s <= (s_max s - s_min s) / s_step s)%Z
      by (apply Z.div_le_mono; lia).
    lia.
Qed.

(** X3: the widgets of the interactive plot, for a context length from
    2 to [2^31 - 1], where the floating-point arithmetic of the source
    gives the whole numbers [ilog10] and [int_three_quarters] compute.
    With an empty list of symbols the first slider has an empty range and
    its construction fails before [interact_manual] is reached.  With at
    least one symbol the cell registers four sliders whose initial value
    is one of their positions (the default horizon, one more than the
    decimal logarithm of the context length, lies below three quarters of
    it), and the horizon slider offers every whole number from 0 to three
    quarters of the context length: its [steps] argument sets no step. *)
Theorem interact_widgets_sliders (lib : library) (st : state) (l : list value) (c : Z) :
  ns st !! "mnemonics" = Some (VList l) ->
  ns st !! "context_length" = Some (VInt c) ->
  (2 <= c < 2 ^ 31)%Z ->
  let out := interact_widgets lib st in
  let horizon := IntSlider 0 (int_three_quarters c) 1 (ilog10 c + 1) in
  let sliders :=
    [stock_id_slider (Z.of_nat (length l)); horizon; IntSlider 55 95 5 80; IntSlider 1 20 1 1] in
  match l with
  | [] => out.1 = inl (LibraryError "TraitError") /\ trace out.2 = trace st
  | _ :: _ =>
      trace out.2
        = (trace st ++ [(InteractManual, (slider_repr <$> sliders) ++ [VBool false; VBool false])])%list
      /\ Forall (fun s => s_value s ∈ slider_values s) sliders
      /\ forall h, h ∈ slider_values horizon <-> (0 <= h <= int_three_quarters c)%Z
  end.
Proof.
  destruct st as [n t r]. cbn [ns trace]. intros Hmn Hc [Hc2 _]. cbn zeta.
  pose proof (horizon_default_in_range c Hc2) as Hdef.
  destruct (interact_widgets lib (State n t r)) as [res st'] eqn:H.
  unfold interact_widgets in H.
  do 5 exec_any H.
  destruct l as [| m l].
  { rewrite mk_slider_empty in H by (cbn; lia). by injection H as <- <-. }
  assert (0 <= Z.of_nat (length (m :: l)) - 1)%Z as Hlen by (cbn [length]; lia).
  repeat first [ rewrite mk_slider_ok in H by (cbn [s_min s_max stock_id_slider]; lia)
               | exec_any H ];
    injection H as <- <-; cbn [fst snd trace].
  all: split; [reflexivity |].
  all: split;
    [| intros h; rewrite elem_of_slider_values by (cbn; lia);
       cbn [s_min s_max s_step]; rewrite Z.mod_1_r; lia].
  all: repeat apply Forall_cons_2; try apply Forall_nil_2;
    apply elem_of_slider_values; cbn [s_min s_max s_step s_value stock_id_slider];
    try lia; (split; [lia | by rewrite ?Z.mod_1_r]).
Qed.

Lemma interact_widgets_sliders_witness :
  (2 <= 91 < 2 ^ 31)%Z
  /\ trace (interact_widgets happy_library session_kernel).2
     = (trace session_kernel
          ++ [(InteractManual,
               (slider_repr <$> [stock_id_slider 5;
                                 IntSlider 0 (int_three_quarters 91) 1 (ilog10 91 + 1);
                                 IntSlider 55 95 5 80; IntSlider 1 20 1 1])
                 ++ [VBool false; VBool false])])%list
  /\ Forall (fun s => s_value s ∈ slider_values s)
       [stock_id_slider 5; IntSlider 0 (int_three_quarters 91) 1 (ilog10 91 + 1);
        IntSlider 55 95 5 80; IntSlider 1 20 1 1]
  /\ forall h, h ∈ slider_values (IntSlider 0 (int_three_quarters 91) 1 (ilog10 91 + 1))
               <-> (0 <= h <= int_three_quarters 91)%Z.
Proof.
  split; [lia |].
  apply (interact_widgets_sliders happy_library session_kernel mnemonics 91);
    [vm_compute; reflexivity | vm_compute; reflexivity | lia].
Defined.

(** ** A press the widgets permit *)

Lemma timestamp_ok_between (e a b : Z) :
  (0 <= a <= b)%Z -> timestamp_ok e = true -> timestamp_ok (e + b) = true ->
  timestamp_ok (e + a) = true.
Proof.
  unfold timestamp_ok. intros Hab He Hb.
  apply andb_prop in He as [He1 He2]. apply andb_prop in Hb as [Hb1 Hb2].
  apply Z.leb_le in He1, He2, Hb1, Hb2.
  apply andb_true_intro. split; apply Z.leb_le; lia.
Qed.

(** X4: a press with values the sliders offer cannot fail in the
    notebook's own code.  In a kernel of a valid run in which the end of
    training, and that date plus the largest horizon, are dates pandas can
    hold, the callback reaches [util.plot] for every horizon and history
    the sliders offer: it issues that one call, with a forecast date that
    is defined (the end of training plus the horizon in days for "D", the
    horizon in hours for "H") and a history of between 1 and 20
    prediction lengths, and it assigns nothing. *)
Theorem permitted_press_reaches_plot (lib : library) (st : state) (i : string)
    (k e : Z) (c : click) (p mn d tc cv : value) :
  length_for i k ->
  ns st !! "interval" = Some (VStr i) ->
  ns st !! "end_training" = Some (VTimestamp e) ->
  ns st !! "prediction_length" = Some (VInt k) ->
  ns st !! "predictor" = Some p ->
  ns st !! "mnemonics" = Some mn ->
  ns st !! "stock_data_series" = Some d ->
  ns st !! "target_column" = Some tc ->
  ns st !! "covariate_columns" = Some cv ->
  timestamp_ok e = true ->
  timestamp_ok (e + int_three_quarters k * 86400) = true ->
  forecast_horizon c ∈ slider_values (IntSlider 0 (int_three_quarters k) 1 (ilog10 k + 1)) ->
  history_plot c ∈ slider_values (IntSlider 1 20 1 1) ->
  exists fd,
    trace (plot_interact lib c st).2
      = (trace st ++ [(Plot, plot_arguments p mn d tc cv k fd c)])%list
    /\ ns (plot_interact lib c st).2 = ns st
    /\ forecast_date_value i e (forecast_horizon c) fd
    /\ (k <= history_plot c * k <= 20 * k)%Z.
Proof.
  destruct st as [n t r]. cbn [ns trace].
  intros Hk Hi He Hpl Hp Hmn Hd Htc Hcv Hoke Hokmax Hh Hhist.
  apply elem_of_slider_values in Hh as [Hh _]; [| cbn; lia].
  apply elem_of_slider_values in Hhist as [Hhist _]; [| cbn; lia].
  cbn [s_min s_max] in Hh, Hhist.
  assert (0 < k /\ int_three_quarters k <= 1638)%Z as [Hkpos Hmax].
  { destruct Hk as [[_ ->] | [_ ->]]; vm_compute; split; congruence. }
  destruct (plot_interact lib c (State n t r)) as [res st'] eqn:H.
  unfold plot_interact in H. do 9 exec_any H.
  match type of H with
  | bind (forecast_date ?h) _ (State ?n0 ?t0 ?r0) = _ =>
      pose proof (forecast_date_unfold (State n0 t0 r0) i h Hi ltac:(lia)) as Hfd;
      destruct (forecast_date_outcome h n0 t0 r0 i e Hi He) as (fres & r' & Hrun & _)
  end.
  cbn [ns] in Hfd. rewrite Hrun in Hfd. cbn [fst] in Hfd. rewrite He in Hfd.
  rewrite (timestamp_ok_between e (forecast_horizon c * 86400)
             (int_three_quarters k * 86400)) in Hfd by (done || lia).
  unfold bind at 1 in H. rewrite Hrun in H.
  assert (exists fd, fres = inr fd /\ forecast_date_value i e (forecast_horizon c) fd)
    as (fd & -> & Hv).
  { destruct Hk as [[-> _] | [-> _]]; subst fres; eexists; (split; [reflexivity |]);
      split; intros; done. }
  exists fd. exec_any H; injection H as <- <-; cbn [fst snd trace ns];
    (split; [reflexivity |]); (split; [reflexivity |]); (split; [exact Hv |]); nia.
Qed.

Lemma permitted_press_reaches_plot_witness :
  length_for "D" 91
  /\ exists fd,
       trace (plot_interact happy_library (Click 3 2 80 1 false) plot_kernel).2
         = (trace plot_kernel
              ++ [(Plot, plot_arguments (VObject 18) (VList mnemonics) (VObject 5)
                           (VStr "EndPrice") covariate_columns 91 fd
                           (Click 3 2 80 1 false))])%list
       /\ ns (plot_interact happy_library (Click 3 2 80 1 false) plot_kernel).2
          = ns plot_kernel
       /\ forecast_date_value "D" 1514764800 2 fd
       /\ (91 <= 1 * 91 <= 20 * 91)%Z.
Proof.
  split; [by left |].
  apply (permitted_press_reaches_plot happy_library plot_kernel "D" 91 1514764800
           (Click 3 2 80 1 false));
    try (vm_compute; reflexivity); [by left | |];
    apply (bool_decide_unpack _); vm_compute; exact I.
Defined.

(** ** Cells run out of order *)

(** X5: cells run out of order stop before they reach the library: each
    cell from the third on, run in a kernel in which the variable it reads
    first is not bound, raises [NameError] for that variable and has
    issued no library call.  The session cell reads [interval] only at
    its end: without it the cell cannot complete, and raises [NameError]
    after its five library calls when these succeed. *)
Theorem cells_stop_on_missing_name (lib : library) (clicks : list click) (st : state) :
  Forall (fun cx : M unit * string =>
            ns st !! cx.2 = None ->
            (cx.1 st).1 = inl (NameError cx.2) /\ trace (cx.1 st).2 = trace st)
         (first_reads lib clicks)
  /\ (ns st !! "interval" = None ->
      match (cell_session lib st).1 with
      | inl (NameError x) =>
          x = "interval" /\ length (trace (cell_session lib st).2) = length (trace st) + 5
      | inl (LibraryError _) => True
      | _ => False
      end).
Proof.
  destruct st as [n t r]. cbn [ns trace]. split.
  - unfold first_reads.
    repeat lazymatch goal with
           | |- Forall _ (_ :: _) => apply Forall_cons_2; [cbn [fst snd]; intros Hx |]
           | |- Forall _ [] => apply Forall_nil_2
           end.
    + unfold cell_load.
      rewrite run_store, (run_load _ (VList [])) by apply lookup_insert_eq.
      cbv beta. rewrite run_load_missing by (by rewrite lookup_insert_ne). done.
    + unfold cell_split. by rewrite run_load_missing.
    + unfold cell_metrics_plot. by rewrite run_load_missing.
    + unfold cell_timeseries_plot. by rewrite run_load_missing.
    + unfold cell_train. by rewrite run_load_missing.
    + unfold cell_deploy. by rewrite run_load_missing.
    + unfold cell_attach. by rewrite run_load_missing.
    + unfold cell_predict. by rewrite run_load_missing.
    + unfold cell_plot_prediction. by rewrite run_load_missing.
    + unfold cell_interact, interact_widgets.
      rewrite run_bind, run_store. cbv beta.
      rewrite run_bind, run_load_missing by (by rewrite lookup_insert_ne). done.
    + unfold cell_delete. by rewrite run_load_missing.
  - intros Hi.
    destruct (cell_session lib (State n t r)) as [res st'] eqn:H.
    unfold cell_session in H.
    repeat exec_any H; try (injection H as <- <-; exact I).
    rewrite !run_load_missing in H by (by rewrite !lookup_insert_ne).
    injection H as <- <-. cbn [fst snd trace]. split; [done |].
    rewrite !length_app. cbn [length]. lia.
Qed.

(** ** What each cell assigns *)

Lemma frames_pure {A} W (m : M A) : pure m -> frames W m.
Proof. intros Hm st x _. by rewrite Hm. Qed.

Lemma frames_ret {A} W (a : A) : frames W (ret a).
Proof. by intros st x _. Qed.

Lemma frames_bind {A B} W (m : M A) (f : A -> M B) :
  frames W m -> (forall a, frames W (f a)) -> frames W (bind m f).
Proof.
  intros Hm Hf st x Hx. unfold bind.
  specialize (Hm st x Hx). destruct (m st) as [[e | a] st']; [done |].
  simpl in Hm. rewrite <- Hm. by apply Hf.
Qed.

Lemma frames_load W x : frames W (load x).
Proof.
  intros [n t r] y _. unfold load. simpl. by destruct (n !! x).
Qed.

Lemma frames_store W x v : x ∈ W -> frames W (store x v).
Proof.
  intros Hx [n t r] y Hy. simpl. apply lookup_insert_ne. by intros ->.
Qed.

Lemma frames_lift_lib {A} (r : string + A) st : ns (lift_lib r st).2 = ns st.
Proof. by destruct r. Qed.

Lemma frames_call W lib c args : frames W (call lib c args).
Proof. intros st x _. unfold call. by rewrite frames_lift_lib. Qed.

Lemma frames_call_load W lib args : frames W (call_load lib args).
Proof. intros st x _. unfold call_load. by rewrite frames_lift_lib. Qed.

Lemma frames_call_split W lib args : frames W (call_split lib args).
Proof. intros st x _. unfold call_split. by rewrite frames_lift_lib. Qed.

Lemma frames_call_query W lib args : frames W (call_query lib args).
Proof. intros st x _. unfold call_query. by rewrite frames_lift_lib. Qed.

(** Walks through a cell: every assignment must be to a variable of the
    cell's own. *)
Ltac frames_step :=
  lazymatch goal with
  | |- frames _ (bind _ _) => apply frames_bind; [| intros ?]
  | |- frames _ (store _ _) => apply frames_store; name_assigned
  | |- frames _ (load _) => apply frames_load
  | |- frames _ (ret _) => apply frames_ret
  | |- frames _ (call _ _ _) => apply frames_call
  | |- frames _ (call_load _ _) => apply frames_call_load
  | |- frames _ (call_split _ _) => apply frames_call_split
  | |- frames _ (call_query _ _) => apply frames_call_query
  | |- frames _ (if ?c then _ else _) => destruct c
  | |- frames _ (let '(_, _) := ?p in _) => destruct p
  | |- frames _ _ => apply frames_pure; solve [auto with preserves_db]
  end.

Lemma frames_button_presses W lib clicks : frames W (button_presses lib clicks).
Proof.
  induction clicks as [| c clicks IH]; simpl.
  - apply frames_ret.
  - apply frames_bind; [| by intros _].
    unfold plot_interact, forecast_date, timedelta_days, timedelta_hours, timedelta_weeks.
    repeat frames_step.
Qed.

(** X6: each of the thirteen code cells after the imports assigns only
    its own variables.  Run in any kernel, with any library, whether it
    completes or fails, a cell leaves every variable outside its own set
    as it found it; the four cells that only plot or delete assign
    nothing, and the interactive cell, presses of its button included,
    assigns [style] and the callback's name [plot_interact] only.  The
    sets of different cells share no variable except [predictor], which
    both the deployment cell and the cell after it assign, and together
    they are the variables these cells assign. *)
Theorem cells_assign_only_their_variables (lib : library) (i : string)
    (clicks : list click) :
  (writes lib i clicks).*1 = notebook lib i clicks
  /\ Forall (fun cw : M unit * list string =>
               forall st x, x ∉ cw.2 -> ns (cw.1 st).2 !! x = ns st !! x)
            (writes lib i clicks)
  /\ shared_writes (writes lib i clicks).*2 = ["predictor"]
  /\ remove_dups (mjoin (writes lib i clicks).*2) = assigned_names.
Proof.
  split; [reflexivity |].
  split; [| split; vm_compute; reflexivity].
  unfold writes, configuration_names.
  repeat lazymatch goal with
         | |- Forall _ (_ :: _) => apply Forall_cons_2; [cbn [fst snd] |]
         | |- Forall _ [] => apply Forall_nil_2
         end.
  all: lazymatch goal with
       | |- forall st x, x ∉ ?W -> ns (?m st).2 !! x = ns st !! x => change (frames W m)
       end.
  - unfold cell_parameters. repeat frames_step.
  - unfold cell_session. repeat frames_step.
  - unfold cell_load. repeat frames_step.
  - unfold cell_split. repeat frames_step.
  - unfold cell_metrics_plot. repeat frames_step.
  - unfold cell_timeseries_plot. repeat frames_step.
  - unfold cell_train. repeat frames_step.
  - unfold cell_deploy. repeat frames_step.
  - unfold cell_attach. repeat frames_step.
  - unfold cell_predict. repeat frames_step.
  - unfold cell_plot_prediction. repeat frames_step.
  - unfold cell_interact, interact_widgets. repeat frames_step.
    apply frames_button_presses.
  - unfold cell_delete. repeat frames_step.
Qed.

(** ** A run that completes *)

Lemma forecast_date_completed h n t r i k e fd st' :
  length_for i k ->
  n !! "interval" = Some (VStr i) ->
  n !! "end_training" = Some (VTimestamp e) ->
  forecast_date h (State n t r) = (inr fd, st') ->
  forecast_date_value i e h fd /\ exists r', st' = State n t r'.
Proof.
  intros Hk Hi He H. unfold forecast_date in H.
  destruct Hk as [[-> ->] | [-> ->]].
  - do 3 exec_in H.
    unfold timedelta_days, timedelta_seconds, py_add, seconds_per_day in H.
    destruct (timedelta_ok _); [| discriminate H].
    change (bind (ret ?a) ?k ?st) with (k a st) in H. cbv beta iota in H.
    destruct (timestamp_ok _); [| discriminate H].
    injection H as <- <-. split; [| by eexists].
    split; [done | discriminate].
  - do 4 exec_in H.
    unfold timedelta_hours, timedelta_seconds in H.
    destruct (timedelta_ok _); [| discriminate H].
    injection H as <- <-. split; [| by eexists].
    split; [discriminate | done].
Qed.

Section Presses.

Variable lib : library.
Variables (n : gmap string value) (i : string) (k e : Z) (p mn d tc cv : value).
Hypothesis Hk : length_for i k.
Hypothesis Hi : n !! "interval" = Some (VStr i).
Hypothesis He : n !! "end_training" = Some (VTimestamp e).
Hypothesis Hpl : n !! "prediction_length" = Some (VInt k).
Hypothesis Hp : n !! "predictor" = Some p.
Hypothesis Hmn : n !! "mnemonics" = Some mn.
Hypothesis Hd : n !! "stock_data_series" = Some d.
Hypothesis Htc : n !! "target_column" = Some tc.
Hypothesis Hcv : n !! "covariate_columns" = Some cv.

Lemma plot_interact_completed c t r st' :
  plot_interact lib c (State n t r) = (inr tt, st') ->
  exists fd x r',
    st' = State n (t ++ [(Plot, plot_arguments p mn d tc cv k fd c)]) r'
    /\ lib_call lib (length t) Plot (plot_arguments p mn d tc cv k fd c) = inr x
    /\ forecast_date_value i e (forecast_horizon c) fd.
Proof.
  intros H. unfold plot_interact in H.
  do 9 exec_in H.
  unfold bind at 1 in H.
  destruct (forecast_date _ _) as [[err | fd] st1] eqn:Hfd; [discriminate H |].
  destruct (forecast_date_completed _ _ _ _ _ _ _ _ _ Hk Hi He Hfd) as [Hv [r1 ->]].
  exec_in H. injection H as <-.
  exists fd, v, r1. done.
Qed.

Lemma button_presses_completed clicks :
  forall t r st',
    button_presses lib clicks (State n t r) = (inr tt, st') ->
    exists plots r',
      st' = State n (t ++ plots) r'
      /\ length plots = length clicks
      /\ forall j c, clicks !! j = Some c ->
           exists fd x,
             plots !! j = Some (Plot, plot_arguments p mn d tc cv k fd c)
             /\ lib_call lib (length t + j) Plot (plot_arguments p mn d tc cv k fd c) = inr x
             /\ forecast_date_value i e (forecast_horizon c) fd.
Proof.
  induction clicks as [| c clicks IH]; intros t r st' H.
  { injection H as <-. exists [], r. rewrite app_nil_r. by repeat split. }
  unfold button_presses in H. simpl in H. unfold bind at 1 in H.
  destruct (plot_interact lib c (State n t r)) as [[err | []] st1] eqn:Hc;
    [discriminate H |].
  destruct (plot_interact_completed c t r st1 Hc) as (fd & x & r1 & -> & Hx & Hfd).
  destruct (IH _ _ _ H) as (plots & r' & -> & Hlen & Hplots).
  exists ((Plot, plot_arguments p mn d tc cv k fd c) :: plots), r'.
  split; [by rewrite <- app_assoc |]. split; [simpl; by rewrite Hlen |].
  intros [| j] c' Hj; simpl in Hj.
  - injection Hj as <-. exists fd, x. by rewrite Nat.add_0_r.
  - destruct (Hplots j c' Hj) as (fd' & x' & Hp' & Hx' & Hfd').
    exists fd', x'. split; [done |]. split; [| done].
    rewrite length_app in Hx'. simpl in Hx'.
    by replace (length t + S j) with (length t + 1 + j) by lia.
Qed.

End Presses.

(** A run that completes: what was called, with which arguments, and
    what the library answered. *)
Lemma completed_run (lib : library) (i : string) (clicks : list click) (st : state) :
  run_notebook lib i clicks = (inr tt, st) ->
  exists (k : Z) (a : answers),
    length_for i k
    /\ (forall pos x, exchanges i k a !! pos = Some x -> answered lib (trace st) pos x)
    /\ (forall j c, clicks !! j = Some c ->
          exists fd v,
            answered lib (trace st) (25 + j)
              (Called Plot
                 (plot_arguments (a_predictor a) (VList mnemonics) (a_table a)
                    (VStr "EndPrice") covariate_columns k fd c) v)
            /\ forecast_date_value i (a_end a) (forecast_horizon c) fd)
    /\ (exists v, answered lib (trace st) (25 + length clicks)
                    (Called DeleteEndpoint [a_predictor a] v))
    /\ length (trace st) = 26 + length clicks
    /\ Forall (fun x => is_Some (ns st !! x)) assigned_names.
Proof.
  intros H.
  destruct (valid_or_not i) as [[k Hk] | [HD HH]]; cycle 1.
  { destruct (run_stops_at_assertion lib i clicks HD HH) as [Hr _].
    rewrite H in Hr. discriminate Hr. }
  unfold run_notebook, notebook, run_cells, fresh_kernel in H. cbn [foldr] in H.
  destruct (cell_parameters_valid i k Hk) as [r0 Hcfg].
  unfold bind at 1 in H. rewrite Hcfg in H.
  unfold configured, hyperparameters, covariate_columns in H.
  clear Hcfg. generalize dependent ([] ++ r0)%list. clear r0. intros r0 H.
  assert ((s_min (IntSlider 0 (int_three_quarters k) 1 (ilog10 k + 1))
           <= s_max (IntSlider 0 (int_three_quarters k) 1 (ilog10 k + 1)))%Z) as Hs2.
  { destruct Hk as [[_ ->] | [_ ->]]; vm_compute; discriminate. }
  unfold cell_session in H; repeat exec_in H.
  unfold cell_load in H; repeat exec_in H.
  unfold cell_split in H; repeat exec_in H.
  unfold cell_metrics_plot in H; repeat exec_in H.
  unfold cell_timeseries_plot in H; repeat exec_in H.
  unfold cell_train in H; repeat exec_in H.
  unfold cell_deploy in H; repeat exec_in H.
  unfold cell_attach in H; repeat exec_in H.
  unfold cell_predict in H; repeat exec_in H.
  unfold cell_plot_prediction in H; repeat exec_in H.
  unfold cell_interact, interact_widgets in H.
  repeat first [ rewrite mk_slider_ok in H by exact Hs2 | exec_in H ].
  unfold bind at 1 in H.
  lazymatch type of H with
  | context [button_presses lib clicks (State ?n ?t ?r)] =>
      destruct (button_presses lib clicks (State n t r)) as [[err | []] st1] eqn:Hbp;
        [discriminate H |];
      let e := bound_in_kernel n "end_training" in
      let p := bound_in_kernel n "predictor" in
      let mn := bound_in_kernel n "mnemonics" in
      let d := bound_in_kernel n "stock_data_series" in
      let tc := bound_in_kernel n "target_column" in
      let cv := bound_in_kernel n "covariate_columns" in
      lazymatch e with
      | VTimestamp ?e' =>
          assert (n !! "interval" = Some (VStr i)) as Hn1 by solve_lookup_in_kernel;
          assert (n !! "end_training" = Some (VTimestamp e')) as Hn2 by solve_lookup_in_kernel;
          assert (n !! "prediction_length" = Some (VInt k)) as Hn3 by solve_lookup_in_kernel;
          assert (n !! "predictor" = Some p) as Hn4 by solve_lookup_in_kernel;
          assert (n !! "mnemonics" = Some mn) as Hn5 by solve_lookup_in_kernel;
          assert (n !! "stock_data_series" = Some d) as Hn6 by solve_lookup_in_kernel;
          assert (n !! "target_column" = Some tc) as Hn7 by solve_lookup_in_kernel;
          assert (n !! "covariate_columns" = Some cv) as Hn8 by solve_lookup_in_kernel;
          pose proof (button_presses_completed lib n i k e' p mn d tc cv
                        Hk Hn1 Hn2 Hn3 Hn4 Hn5 Hn6 Hn7 Hn8 clicks t r st1 Hbp) as Hbp';
          clear Hbp Hn1 Hn2 Hn3 Hn4 Hn5 Hn6 Hn7 Hn8
      end
  end.
  destruct Hbp' as (plots & r1 & -> & Hlen & Hplots).
  unfold cell_delete in H. cbn [app] in H. repeat exec_in H.
  lazymatch type of H with
  | ret _ ?s = (_, ?st') => assert (st' = s) as -> by exact (eq_sym (f_equal snd H))
  end.
  clear H. cbn [trace ns].
  lazymatch goal with
  | E0 : lib_call lib 0 _ _ = inr ?a0, E1 : lib_call lib 1 _ _ = inr ?a1,
    E2 : lib_call lib 2 _ _ = inr ?a2, E3 : lib_call lib 3 _ _ = inr ?a3,
    E4 : lib_call lib 4 _ _ = inr ?a4, E5 : lib_load lib 5 _ = inr (?a5, ?b5),
    E6 : lib_call lib 6 _ _ = inr ?a6,
    E7 : lib_split lib 7 _ = inr (?a7, ?b7, ?c7, ?d7),
    E8 : lib_call lib 8 _ _ = inr ?a8, E9 : lib_call lib 9 _ _ = inr ?a9,
    E10 : lib_call lib 10 _ _ = inr ?a10, E11 : lib_call lib 11 _ _ = inr ?a11,
    E12 : lib_call lib 12 _ _ = inr ?a12, E13 : lib_call lib 13 _ _ = inr ?a13,
    E14 : lib_call lib 14 _ _ = inr ?a14, E15 : lib_call lib 15 _ _ = inr ?a15,
    E16 : lib_call lib 16 _ _ = inr ?a16, E17 : lib_call lib 17 _ _ = inr ?a17,
    E18 : lib_call lib 18 _ _ = inr ?a18,
    E19 : lib_query lib 19 _ = inr (?a19, ?b19, ?c19),
    E20 : lib_call lib 20 _ _ = inr ?a20, E21 : lib_call lib 21 _ _ = inr ?a21,
    E22 : lib_call lib 22 _ _ = inr ?a22, E23 : lib_call lib 23 _ _ = inr ?a23,
    E24 : lib_call lib 24 _ _ = inr ?a24 |- _ =>
      exists k, (Answers a0 a1 a2 a3 a4 a5 b5 a6 a7 b7 c7 d7 a8 a9 a10 a11 a12 a13 a14
                   a15 a16 a17 a18 a19 b19 c19 a20 a21 a22 a23 a24)
  end.
  split; [exact Hk |]. split.
  { intros pos x Hpos.
    do 25 (destruct pos as [| pos];
           [injection Hpos as <-; split; [reflexivity | assumption] |]).
    discriminate Hpos. }
  split.
  { intros j c Hj. destruct (Hplots j c Hj) as (fd & x & Hp & Hx & Hfd).
    exists fd, x. split; [| exact Hfd]. split; [| exact Hx].
    cbn [a_predictor a_table].
    cbn [Nat.add lookup list_lookup]. by apply lookup_app_l_Some. }
  split.
  { eexists. split.
    - cbn [Nat.add lookup list_lookup]. rewrite <- Hlen. apply list_lookup_middle. done.
    - rewrite <- Hlen. eassumption. }
  split.
  { cbn [length]. rewrite length_app, Hlen. cbn [length]. lia. }
  unfold assigned_names.
  repeat lazymatch goal with
         | |- Forall _ (_ :: _) => apply Forall_cons_2; [eexists; solve_lookup_in_kernel |]
         | |- Forall _ [] => apply Forall_nil_2
         end.
Qed.

Lemma completed (lib : library) (i : string) (clicks : list click) :
  (run_notebook lib i clicks).1 = inr tt ->
  run_notebook lib i clicks = (inr tt, (run_notebook lib i clicks).2).
Proof. destruct (run_notebook lib i clicks) as [r st]. simpl. by intros ->. Qed.

(** X7: in a completed run the model is trained for the horizon that is
    later queried and plotted: [set_hyperparameters] receives "91" (for
    "D") or "2184" (for "H") as prediction and context length and the
    interval as time frequency, [query_for_stock] receives the same number
    as prediction length, and every plot receives it as prediction length
    and [history_plot] times it as the length of the history. *)
Theorem trained_and_queried_for_one_horizon (lib : library) (i : string)
    (clicks : list click) :
  (run_notebook lib i clicks).1 = inr tt ->
  one_horizon lib i clicks (trace (run_notebook lib i clicks).2).
Proof.
  intros Hok. apply completed in Hok.
  destruct (completed_run lib i clicks _ Hok) as (k & a & Hk & Hx & Hplots & _).
  set (log := trace _) in *. clearbody log. clear Hok.
  exists k, (pretty k), (a_estimator a), (a_hyperparameters a).
  eexists [_; _; _; _], _.
  split; [destruct Hk as [[-> ->] | [-> ->]]; [left | right]; done |].
  split; [exact (Hx 13 _ eq_refl) |].
  split; [exact (Hx 19 _ eq_refl) |].
  split; [reflexivity |].
  intros j c Hj. destruct (Hplots j c Hj) as (fd & v & Hplot & _).
  eexists [_; _; _; _; _; _], fd, v. split; [exact Hplot | reflexivity].
Qed.

Lemma trained_and_queried_for_one_horizon_witness :
  (run_notebook happy_library "D" two_clicks).1 = inr tt
  /\ one_horizon happy_library "D" two_clicks
       (trace (run_notebook happy_library "D" two_clicks).2).
Proof.
  split; [vm_compute; reflexivity |].
  apply (trained_and_queried_for_one_horizon happy_library "D" two_clicks).
  vm_compute; reflexivity.
Defined.

(** X8: in a completed run the two channels reach [fit] under their own
    names: the training data that [generate_train_test_set] returned is
    written as "train", the test data as "test", and [fit] receives the
    answer of the first write under "train" and that of the second under
    "test". *)
Theorem fit_receives_written_channels (lib : library) (i : string)
    (clicks : list click) :
  (run_notebook lib i clicks).1 = inr tt ->
  channels_reach_fit lib i (trace (run_notebook lib i clicks).2).
Proof.
  intros Hok. apply completed in Hok.
  destruct (completed_run lib i clicks _ Hok) as (k & a & Hk & Hx & _).
  set (log := trace _) in *. clearbody log. clear Hok.
  do 11 eexists.
  split; [exact (Hx 7 _ eq_refl) |].
  split; [exact (Hx 8 _ eq_refl) |].
  split; [exact (Hx 9 _ eq_refl) |].
  exact (Hx 14 _ eq_refl).
Qed.

Lemma fit_receives_written_channels_witness :
  (run_notebook happy_library "D" two_clicks).1 = inr tt
  /\ channels_reach_fit happy_library "D"
       (trace (run_notebook happy_library "D" two_clicks).2).
Proof.
  split; [vm_compute; reflexivity |].
  apply (fit_receives_written_channels happy_library "D" two_clicks).
  vm_compute; reflexivity.
Defined.

(** X9: in a completed run the predictor that [deploy] returned is only
    asked for its endpoint; the cell after it rebinds [predictor] to the
    one [DeepARPredictor] builds from the name of the training job, and
    this one receives the query, every plot and, as the last call of the
    run, the deletion of the endpoint. *)
Theorem one_predictor_after_attach (lib : library) (i : string)
    (clicks : list click) :
  (run_notebook lib i clicks).1 = inr tt ->
  attached_predictor_used lib clicks (trace (run_notebook lib i clicks).2).
Proof.
  intros Hok. apply completed in Hok.
  destruct (completed_run lib i clicks _ Hok)
    as (k & a & Hk & Hx & Hplots & [v Hdel] & Hlen & _).
  set (log := trace _) in *. clearbody log. clear Hok.
  exists (a_estimator a), (a_job a), (a_deployed a), (a_endpoint a), (a_predictor a),
    (a_prediction a), v.
  eexists.
  split; [exact (Hx 15 _ eq_refl) |].
  split; [exact (Hx 16 _ eq_refl) |].
  split; [exact (Hx 17 _ eq_refl) |].
  split; [exact (Hx 18 _ eq_refl) |].
  split; [exact (Hx 20 _ eq_refl) |].
  split; [| by split].
  intros j c Hj. destruct (Hplots j c Hj) as (fd & x & Hplot & _).
  do 2 eexists. exact Hplot.
Qed.

Lemma one_predictor_after_attach_witness :
  (run_notebook happy_library "D" two_clicks).1 = inr tt
  /\ attached_predictor_used happy_library two_clicks
       (trace (run_notebook happy_library "D" two_clicks).2).
Proof.
  split; [vm_compute; reflexivity |].
  apply (one_predictor_after_attach happy_library "D" two_clicks).
  vm_compute; reflexivity.
Defined.

(** X10: in a completed run each press of the button issues exactly one
    call of [util.plot], in the order of the presses, and the run issues
    no other call besides the 25 before and the deletion after: the call
    carries the stock index, the confidence and the sample switch of its
    press, and as forecast date the end of training plus the chosen
    horizon in days for daily data, the bare horizon in hours for hourly
    data. *)
Theorem plot_calls_follow_clicks (lib : library) (i : string) (clicks : list click) :
  (run_notebook lib i clicks).1 = inr tt ->
  plots_follow_clicks lib i clicks (trace (run_notebook lib i clicks).2).
Proof.
  intros Hok. apply completed in Hok.
  destruct (completed_run lib i clicks _ Hok)
    as (k & a & Hk & Hx & Hplots & _ & Hlen & _).
  set (log := trace _) in *. clearbody log. clear Hok.
  do 5 eexists. exists (a_predictor a). do 5 eexists.
  split; [exact Hlen |].
  split; [exact (Hx 7 _ eq_refl) |].
  intros j c Hj. destruct (Hplots j c Hj) as (fd & x & Hplot & HD & HH).
  do 3 eexists. split; [exact Hplot |]. by split.
Qed.

Lemma plot_calls_follow_clicks_witness :
  (run_notebook happy_library "D" two_clicks).1 = inr tt
  /\ plots_follow_clicks happy_library "D" two_clicks
       (trace (run_notebook happy_library "D" two_clicks).2).
Proof.
  split; [vm_compute; reflexivity |].
  apply (plot_calls_follow_clicks happy_library "D" two_clicks).
  vm_compute; reflexivity.
Defined.

(** X11: in a completed run one bucket and one key serve all data: the
    bucket that [default_bucket] answered is where the table is loaded
    from and where both channels are written, under the key
    "dbg-stockdata/source" and the interval, and, when it is a string [b],
    the output path of the estimator is
    "s3://b/dbg-stockdata/source/<interval>/output". *)
Theorem run_uses_one_s3_location (lib : library) (i : string) (clicks : list click) :
  (run_notebook lib i clicks).1 = inr tt ->
  one_s3_location lib i (trace (run_notebook lib i clicks).2).
Proof.
  intros Hok. apply completed in Hok.
  destruct (completed_run lib i clicks _ Hok) as (k & a & Hk & Hx & _).
  set (log := trace _) in *. clearbody log. clear Hok.
  exists (a_session a), (a_bucket a). do 11 eexists.
  split; [exact (Hx 4 _ eq_refl) |].
  split; [exact (Hx 5 _ eq_refl) |].
  split; [exact (Hx 8 _ eq_refl) |].
  split; [exact (Hx 9 _ eq_refl) |].
  split; [exact (Hx 12 _ eq_refl) |].
  intros b ->. reflexivity.
Qed.

Lemma run_uses_one_s3_location_witness :
  (run_notebook happy_library "D" two_clicks).1 = inr tt
  /\ one_s3_location happy_library "D"
       (trace (run_notebook happy_library "D" two_clicks).2).
Proof.
  split; [vm_compute; reflexivity |].
  apply (run_uses_one_s3_location happy_library "D" two_clicks).
  vm_compute; reflexivity.
Defined.

(** X12: in a completed run the forecast is asked for the table that was
    used for training: the table that [load_resampled_from_s3] answered
    goes, with the same target and covariate columns, into the split and
    into the query for "BMW"; the series and features of the query's
    answer go to [predict] with the quantiles 0.1, 0.5 and 0.9, and the
    plot of the prediction shows that series, the observed values of the
    same answer and the last column of the prediction. *)
Theorem forecast_uses_training_table (lib : library) (i : string)
    (clicks : list click) :
  (run_notebook lib i clicks).1 = inr tt ->
  forecast_flow lib i (trace (run_notebook lib i clicks).2).
Proof.
  intros Hok. apply completed in Hok.
  destruct (completed_run lib i clicks _ Hok) as (k & a & Hk & Hx & _).
  set (log := trace _) in *. clearbody log. clear Hok.
  eexists. exists (a_table a). do 14 eexists.
  split; [exact (Hx 5 _ eq_refl) |].
  split; [exact (Hx 7 _ eq_refl) |].
  split; [exact (Hx 19 _ eq_refl) |].
  split; [exact (Hx 20 _ eq_refl) |].
  split; [exact (Hx 22 _ eq_refl) |].
  split; [exact (Hx 23 _ eq_refl) |].
  unfold mnemonics. do 3 apply list_elem_of_further. apply list_elem_of_here.
Qed.

Lemma forecast_uses_training_table_witness :
  (run_notebook happy_library "D" two_clicks).1 = inr tt
  /\ forecast_flow happy_library "D"
       (trace (run_notebook happy_library "D" two_clicks).2).
Proof.
  split; [vm_compute; reflexivity |].
  apply (forecast_uses_training_table happy_library "D" two_clicks).
  vm_compute; reflexivity.
Defined.

(** X13: in a completed run the estimator is built for the session of
    the run: with the image that [get_image_uri] answered for
    "forecasting-deepar" in the region of that session, with the
    execution role, and with the session itself, on one "ml.c5.18xlarge"
    instance. *)
Theorem estimator_built_for_session (lib : library) (i : string) (clicks : list click) :
  (run_notebook lib i clicks).1 = inr tt ->
  estimator_of_session lib (trace (run_notebook lib i clicks).2).
Proof.
  intros Hok. apply completed in Hok.
  destruct (completed_run lib i clicks _ Hok) as (k & a & Hk & Hx & _).
  set (log := trace _) in *. clearbody log. clear Hok.
  exists (a_role a), (a_session a), (a_region a), (a_image a). do 3 eexists.
  split; [exact (Hx 0 _ eq_refl) |].
  split; [exact (Hx 1 _ eq_refl) |].
  split; [exact (Hx 2 _ eq_refl) |].
  split; [exact (Hx 3 _ eq_refl) |].
  exact (Hx 12 _ eq_refl).
Qed.

Lemma estimator_built_for_session_witness :
  (run_notebook happy_library "D" two_clicks).1 = inr tt
  /\ estimator_of_session happy_library
       (trace (run_notebook happy_library "D" two_clicks).2).
Proof.
  split; [vm_compute; reflexivity |].
  apply (estimator_built_for_session happy_library "D" two_clicks).
  vm_compute; reflexivity.
Defined.

(** X14: in a completed run the table is loaded for the five configured
    symbols and for the four metrics, the three covariate columns first
    and the target column last, and both sanity plots receive that table
    with those symbols and metrics. *)
Theorem sanity_plots_show_loaded_table (lib : library) (i : string)
    (clicks : list click) :
  (run_notebook lib i clicks).1 = inr tt ->
  loaded_table_plotted lib i (trace (run_notebook lib i clicks).2).
Proof.
  intros Hok. apply completed in Hok.
  destruct (completed_run lib i clicks _ Hok) as (k & a & Hk & Hx & _).
  set (log := trace _) in *. clearbody log. clear Hok.
  do 2 eexists. exists (a_table a). do 4 eexists. cbn zeta.
  split; [exact (Hx 5 _ eq_refl) |].
  split; [exact (Hx 6 _ eq_refl) |].
  split; [exact (Hx 10 _ eq_refl) |].
  exact (Hx 11 _ eq_refl).
Qed.

Lemma sanity_plots_show_loaded_table_witness :
  (run_notebook happy_library "D" two_clicks).1 = inr tt
  /\ loaded_table_plotted happy_library "D"
       (trace (run_notebook happy_library "D" two_clicks).2).
Proof.
  split; [vm_compute; reflexivity |].
  apply (sanity_plots_show_loaded_table happy_library "D" two_clicks).
  vm_compute; reflexivity.
Defined.

(** ** A run does not depend on what the kernel held before *)

Lemma agree_weaken D D' st1 st2 :
  (forall x, x ∈ D' -> x ∈ D) -> agree D st1 st2 -> agree D' st1 st2.
Proof. intros HD (Ht & Hr & Hn). repeat split; auto. Qed.

Lemma agree_nil D st1 st2 : agree D st1 st2 -> agree [] st1 st2.
Proof. apply agree_weaken. intros x Hx. by apply elem_of_nil in Hx. Qed.


Lemma respects_raise {A} D D' e : respects D D' (@raise A e).
Proof. intros st1 st2 H. split; [done |]. simpl. by eapply agree_nil. Qed.











Lemma builtin_py_assert c : exists r, forall st, py_assert c st = (r, st).
Proof. destruct c; by eexists. Qed.

Lemma builtin_py_len v : exists r, forall st, py_len v st = (r, st).
Proof. destruct v; by eexists. Qed.

Lemma builtin_py_mul a b : exists r, forall st, py_mul a b st = (r, st).
Proof. destruct a, b; by eexists. Qed.

Lemma builtin_py_extend a b : exists r, forall st, py_extend a b st = (r, st).
Proof. destruct a, b; by eexists. Qed.

Lemma builtin_py_append a b : exists r, forall st, py_append a b st = (r, st).
Proof. destruct a; by eexists. Qed.

Lemma builtin_as_int v : exists r, forall st, as_int v st = (r, st).
Proof. destruct v; by eexists. Qed.

Lemma builtin_timedelta_seconds s : exists r, forall st, timedelta_seconds s st = (r, st).
Proof. unfold timedelta_seconds. destruct (timedelta_ok s); by eexists. Qed.

Lemma builtin_py_add a b : exists r, forall st, py_add a b st = (r, st).
Proof.
  destruct a, b; try by eexists. simpl. destruct (timestamp_ok _); by eexists.
Qed.

Lemma builtin_reparse_timestamp v : exists r, forall st, reparse_timestamp v st = (r, st).
Proof. destruct v; by eexists. Qed.

Lemma builtin_mk_slider s : exists r, forall st, mk_slider s st = (r, st).
Proof. unfold mk_slider. destruct (_ <? _)%Z; by eexists. Qed.

Create HintDb builtin_db.

#[local] Hint Resolve builtin_py_assert builtin_py_len builtin_py_mul builtin_py_extend
  builtin_py_append builtin_as_int builtin_timedelta_seconds builtin_py_add
  builtin_reparse_timestamp builtin_mk_slider : builtin_db.








(** ** The endpoint is deleted by the last cell only *)




(** * Properties of the helper module *)

(** ** JSON round trips *)

Lemma mapM_fmap_Some_gen {A B C} (f : B -> option C) (g : A -> B) (h : A -> C)
    (l : list A) :
  (forall x, f (g x) = Some (h x)) -> mapM f (g <$> l) = Some (h <$> l).
Proof.
  intros Hfg. apply mapM_Some_2.
  induction l as [| x l IH]; constructor; auto.
Qed.

Lemma jfloats_inv_jfloats l : jfloats_inv (jfloats l) = Some l.
Proof.
  unfold jfloats_inv, jfloats.
  rewrite (mapM_fmap_Some_gen _ JNum id) by done. by rewrite list_fmap_id.
Qed.

Lemma jarrays_inv_jarrays l : jarrays_inv (jarrays l) = Some l.
Proof.
  unfold jarrays_inv, jarrays.
  rewrite (mapM_fmap_Some_gen _ jfloats id) by apply jfloats_inv_jfloats.
  by rewrite list_fmap_id.
Qed.

Lemma encode_request_fields ts df qs :
  jfield "target" (encode_request ts df qs) = Some (jfloats ts)
  /\ jfield "dynamic_feat" (encode_request ts df qs) = jarrays <$> df
  /\ jfield "quantiles" (encode_request ts df qs) = Some (jfloats qs).
Proof. by destruct df. Qed.

Lemma decode_encode_request ts df qs :
  decode_request (encode_request ts df qs) = Some (ts, df, qs).
Proof.
  destruct (encode_request_fields ts df qs) as (Ht & Hd & Hq).
  unfold decode_request. rewrite Ht, Hd, Hq.
  cbn [mbind option_bind]. rewrite !jfloats_inv_jfloats. cbn [mbind option_bind].
  destruct df as [d |]; cbn [fmap option_fmap option_map]; [| done].
  by rewrite jarrays_inv_jarrays.
Qed.

(** ** The query built from the table *)

Lemma wf_column_length t k col :
  table_wf t -> t_columns t !! k = Some col -> length col = length (t_index t).
Proof. intros Hwf Hk. exact (Hwf k col Hk). Qed.

Lemma wf_features_length t s covs feats :
  table_wf t ->
  mapM (fun c => t_columns t !! (s, c)) covs = Some feats ->
  Forall (fun f => length f = length (t_index t)) feats.
Proof.
  intros Hwf Hfeats%mapM_Some_1.
  induction Hfeats as [| c f covs feats Hc _ IH]; constructor; [| done].
  by eapply wf_column_length.
Qed.

(** What [query_for_stock] returns on a well-formed table. *)
Lemma query_for_stock_Some t stock target covs P ts df obs :
  table_wf t ->
  query_for_stock stock target covs t P = Some (ts, df, obs) ->
  t_columns t !! (stock, target) = Some obs
  /\ ts = take (length (t_index t) - P) obs
  /\ Forall2 (fun c f => t_columns t !! (stock, c) = Some f) covs df
  /\ Forall (fun f => length f = length (t_index t)) df.
Proof.
  intros Hwf Hq. unfold query_for_stock in Hq.
  destruct (t_columns t !! (stock, target)) as [tgt |] eqn:Htgt; [| done].
  simpl in Hq.
  destruct (mapM _ covs) as [feats |] eqn:Hfeats; [| done]. simpl in Hq.
  injection Hq as <- <- <-.
  pose proof (wf_column_length t _ tgt Hwf Htgt) as Hlen.
  repeat split; [by rewrite Hlen | by apply mapM_Some_1 |].
  by eapply wf_features_length.
Qed.

Lemma query_for_stock_covers t stock target covs P ts df obs :
  table_wf t ->
  P <= length (t_index t) ->
  query_for_stock stock target covs t P = Some (ts, df, obs) ->
  Forall (fun f => length f = length ts + P) df.
Proof.
  intros Hwf HP Hq.
  destruct (query_for_stock_Some _ _ _ _ _ _ _ _ Hwf Hq) as (Hobs & -> & _ & Hlen).
  eapply Forall_impl; [exact Hlen |]. intros f Hf. simpl.
  rewrite length_take, (wf_column_length t _ obs Hwf Hobs), Hf. lia.
Qed.

(** ** The prediction client *)

(** C6: the request built for a target series, optional feature arrays
    and a list of quantiles is a JSON object with exactly these parts:
    the target values, the feature arrays when they are supplied (no
    such field otherwise), and the quantiles; decoding it gives the
    three inputs back.  When the series and the arrays are those of
    [query_for_stock], the arrays of the request reach [P] points beyond
    the target values: they cover the forecast horizon. *)
Theorem encode_request_content (ts : list float) (df : option (list (list float)))
    (qs : list float) :
  decode_request (encode_request ts df qs) = Some (ts, df, qs)
  /\ jfield "target" (encode_request ts df qs) = Some (jfloats ts)
  /\ jfield "dynamic_feat" (encode_request ts df qs) = jarrays <$> df
  /\ jfield "quantiles" (encode_request ts df qs) = Some (jfloats qs)
  /\ (exists fields,
        encode_request ts df qs = JObj fields
        /\ fields.*1
           = (["target"] ++ match df with Some _ => ["dynamic_feat"] | None => [] end
                ++ ["quantiles"])%list)
  /\ (forall t stock target covs P d obs,
        table_wf t -> P <= length (t_index t) ->
        query_for_stock stock target covs t P = Some (ts, d, obs) ->
        jfield "dynamic_feat" (encode_request ts (Some d) qs) = Some (jarrays d)
        /\ Forall (fun a => length a = length ts + P) d).
Proof.
  split; [apply decode_encode_request |].
  destruct (encode_request_fields ts df qs) as (Ht & Hd & Hq).
  repeat (split; [assumption |]).
  split; [destruct df as [d |]; eexists; split; reflexivity |].
  intros t stock target covs P d obs Hwf HP Hq'.
  split; [reflexivity |]. by eapply query_for_stock_covers.
Qed.

(** C5: whatever the hosted model computes, the forecast that
    [predict] returns has one column per requested quantile, labelled by
    the requested quantiles in order and by nothing else, and every
    column has [prediction_length] values. *)
Theorem predict_quantile_columns (prediction_length : nat)
    (quantile_key : float -> string)
    (forecaster : list float -> option (list (list float)) -> float -> nat -> float)
    (ts : list float) (df : option (list (list float))) (qs : list float) :
  exists cols : list (string * list float),
    predict prediction_length quantile_key forecaster ts df qs = Some cols
    /\ cols.*1 = quantile_key <$> qs
    /\ Forall (fun c => length c.2 = prediction_length) cols.
Proof.
  exists ((fun q => (quantile_key q, forecaster ts df q <$> seq 0 prediction_length)) <$> qs).
  split; [| split].
  - unfold predict, invoke_endpoint. rewrite decode_encode_request. simpl.
    apply mapM_fmap_Some_gen. intros q. cbn [fst snd].
    by rewrite jfloats_inv_jfloats.
  - by rewrite <- list_fmap_compose.
  - apply Forall_fmap, Forall_true. intros q. simpl.
    by rewrite length_fmap, length_seq.
Qed.
